(** * other_expense_tracker: the three-node expense workflow

    A shallow embedding of [src/other_expense_tracker.py]: the state
    [ExpenseState] and the three graph nodes
    [extract_other_expenses_node], [calculate_other_expenses_node] and
    [generate_output_node], run in that order by the compiled graph.

    Python values are an inductive type, exceptions are an explicit error
    monad, floats are IEEE binary64 numbers ([SpecFloat], precision 53,
    [emax] 1024) and each [try ... except Exception] block is a body in
    the error monad whose failure the node turns into the [error] field.

    Strings are byte strings (UTF-8 for text beyond ASCII) and [lower]
    folds the ASCII letters: the five keywords are ASCII, and no other
    letter lowercases to a run of them. *)

From Stdlib Require Import ZArith List String Ascii Bool Lia DecimalString.
From Stdlib Require Import Floats.SpecFloat.
Import ListNotations.

Set Warnings "-register-all".

Local Open Scope list_scope.
Local Open Scope string_scope.

(** ** Strings *)

(** [str.lower()] on one character. *)
Definition lower_ascii (c : ascii) : ascii :=
  let n := nat_of_ascii c in
  if (65 <=? n)%nat && (n <=? 90)%nat then ascii_of_nat (n + 32) else c.

(** [s.lower()]. *)
Fixpoint lower (s : string) : string :=
  match s with
  | EmptyString => EmptyString
  | String c r => String (lower_ascii c) (lower r)
  end.

(** [kw in s] on strings: [kw] occurs in [s] as a contiguous run. *)
Fixpoint contains (kw s : string) : bool :=
  String.prefix kw s ||
  match s with
  | EmptyString => false
  | String _ r => contains kw r
  end.

(** The relation [contains] decides. *)
Definition Substring (kw s : string) : Prop :=
  exists pre post, s = pre ++ kw ++ post.

(** [str(z)] for an integer and [str(n)] for a length. *)
Definition string_of_Z (z : Z) : string := NilZero.string_of_int (Z.to_int z).
Definition string_of_nat (n : nat) : string := NilZero.string_of_uint (Nat.to_uint n).

(** ** Floats *)

Definition float := spec_float.
Definition prec : Z := 53.
Definition emax : Z := 1024.

(** [x + y] on floats. *)
Definition float_add : float -> float -> float := SFadd prec emax.

(** The float nearest to an integer (ties to even); an integer beyond the
    range rounds to an infinity here and is refused by [int_to_float]. *)
Definition float_of_Z (z : Z) : float := binary_normalize prec emax z 0 false.

(** [0.0 <= x]: false on NaN, true on both zeros. *)
Definition float_nonneg (x : float) : bool := SFleb (S754_zero false) x.

(** [x < 0.0]. *)
Definition float_neg (x : float) : bool := SFltb x (S754_zero false).

(** Nearest integer to [n / d], ties to even ([0 <= n], [0 < d]). *)
Definition round_half_even (n d : Z) : Z :=
  let q := (n / d)%Z in
  let r := (n mod d)%Z in
  match (2 * r ?= d)%Z with
  | Lt => q
  | Gt => (q + 1)%Z
  | Eq => if Z.even q then q else (q + 1)%Z
  end.

(** [m * 2^e] in hundredths, correctly rounded. *)
Definition hundredths (m : positive) (e : Z) : Z :=
  match e with
  | Zneg p => round_half_even (Zpos m * 100) (2 ^ Zpos p)
  | _ => (Zpos m * 100 * 2 ^ e)%Z
  end.

Definition two_digits (n : Z) : string :=
  if (n <? 10)%Z then "0" ++ string_of_Z n else string_of_Z n.

Definition fixed2 (h : Z) : string :=
  string_of_Z (h / 100) ++ "." ++ two_digits (h mod 100).

Definition sign_string (s : bool) : string := if s then "-" else "".

(** [f"{x:.2f}"] for a float [x]. *)
Definition format_float_2f (x : float) : string :=
  match x with
  | S754_nan => "nan"
  | S754_infinity s => sign_string s ++ "inf"
  | S754_zero s => sign_string s ++ "0.00"
  | S754_finite s m e => sign_string s ++ fixed2 (hundredths m e)
  end.

(** ** Values and exceptions *)

(** What [response.json()] can hold. A dict keeps its items in insertion
    order; lookup takes the first item with the key. *)
Inductive pyval :=
| PNone
| PBool (b : bool)
| PInt (z : Z)
| PFloat (x : float)
| PStr (s : string)
| PList (l : list pyval)
| PDict (d : list (string * pyval)).

Definition dict := list (string * pyval).

(** The exceptions the nodes can meet; all derive from [Exception]. *)
Inductive exn :=
| AttributeError (obj : pyval) (attr : string)
| KeyError (key : string)
| TypeError (op : string) (obj : pyval)
| ValueError (op : string) (obj : pyval)
| OverflowError.

(** A computation that returns or raises. *)
Definition result (A : Type) : Type := (exn + A)%type.

Definition ret {A} (a : A) : result A := inr a.
Definition raise {A} (e : exn) : result A := inl e.
Definition bind {A B} (c : result A) (k : A -> result B) : result B :=
  match c with
  | inl e => inl e
  | inr a => k a
  end.

Notation "x <- c ;; k" := (bind c (fun x => k))
  (at level 61, c at next level, right associativity).

(** Did the computation raise? *)
Definition raises {A} (c : result A) : bool :=
  match c with inl _ => true | inr _ => false end.

(** [d.get(k)] as an option. *)
Fixpoint lookup (k : string) (d : dict) : option pyval :=
  match d with
  | [] => None
  | (k', v) :: r => if String.eqb k k' then Some v else lookup k r
  end.

(** [obj.get(k, default)]: only a dict has the method. *)
Definition py_get (obj : pyval) (k : string) (default : pyval) : result pyval :=
  match obj with
  | PDict d => ret (match lookup k d with Some v => v | None => default end)
  | _ => raise (AttributeError obj "get")
  end.

(** [obj[k]] with a string key. *)
Definition py_getitem (obj : pyval) (k : string) : result pyval :=
  match obj with
  | PDict d => match lookup k d with Some v => ret v | None => raise (KeyError k) end
  | _ => raise (TypeError "subscript" obj)
  end.

(** [for x in obj]: a list gives its items, a dict its keys, a string its
    characters; nothing else is iterable. *)
Definition py_iter (obj : pyval) : result (list pyval) :=
  match obj with
  | PList l => ret l
  | PDict d => ret (map (fun kv => PStr (fst kv)) d)
  | PStr s => ret (map (fun c => PStr (String c EmptyString)) (list_ascii_of_string s))
  | _ => raise (TypeError "iter" obj)
  end.

(** [float(z)] for an integer [z]. *)
Definition int_to_float (z : Z) : result float :=
  match float_of_Z z with
  | S754_infinity _ => raise OverflowError
  | x => ret x
  end.

(** Numbers as [sum] and [+] meet them: the integer start value or a float. *)
Inductive number :=
| NInt (z : Z)
| NFloat (x : float).

Definition pyval_of_number (n : number) : pyval :=
  match n with
  | NInt z => PInt z
  | NFloat x => PFloat x
  end.

(** [a + b] on numbers: an integer operand of a float addition is
    converted first. *)
Definition num_add (a b : number) : result number :=
  match a, b with
  | NInt x, NInt y => ret (NInt (x + y))
  | NInt x, NFloat y => fx <- int_to_float x ;; ret (NFloat (float_add fx y))
  | NFloat x, NInt y => fy <- int_to_float y ;; ret (NFloat (float_add x fy))
  | NFloat x, NFloat y => ret (NFloat (float_add x y))
  end.

(** [f"{v:.2f}"]: numbers only. *)
Definition format_2f (v : pyval) : result string :=
  match v with
  | PFloat x => ret (format_float_2f x)
  | PInt z => x <- int_to_float z ;; ret (format_float_2f x)
  | PBool b => x <- int_to_float (if b then 1 else 0) ;; ret (format_float_2f x)
  | PStr _ => raise (ValueError "format" v)
  | _ => raise (TypeError "format" v)
  end.

(** ** The interpreter and the services around the program

    What the program takes from its environment and this development does
    not define: the text of [repr] for floats and containers, the parser
    behind [float(str)], the text of [str(e)] for an exception, and the
    chat model. Every statement below holds for any such runtime. *)
Class Runtime := {
  (** [str(v)] for a float, a list or a dict *)
  repr_value : pyval -> string;
  (** [float(s)] for a string, [None] when it raises [ValueError] *)
  float_of_string : string -> option float;
  (** [str(e)] *)
  exn_str : exn -> string;
  (** the inner [try] block of the calculation: building the model,
      [json.dumps] of the items, the call and reading the reply; [None]
      when anything in it raises *)
  llm_analysis : list pyval -> option string
}.

(** ** State *)

(** [class ExpenseState(TypedDict)]. [raw_data] is what the API returned,
    so nothing is assumed about its shape. *)
Record ExpenseState := mkState {
  raw_data : pyval;
  expense_items : list pyval;
  calculated_other_expenses : dict;
  output : string;
  error : option string
}.

Definition set_expense_items (v : list pyval) (s : ExpenseState) : ExpenseState :=
  mkState (raw_data s) v (calculated_other_expenses s) (output s) (error s).

Definition set_calculated (v : dict) (s : ExpenseState) : ExpenseState :=
  mkState (raw_data s) (expense_items s) v (output s) (error s).

Definition set_output (v : string) (s : ExpenseState) : ExpenseState :=
  mkState (raw_data s) (expense_items s) (calculated_other_expenses s) v (error s).

Definition set_error (v : option string) (s : ExpenseState) : ExpenseState :=
  mkState (raw_data s) (expense_items s) (calculated_other_expenses s) (output s) v.

(** [initial_state] of [main]. *)
Definition initial_state (raw : pyval) : ExpenseState :=
  mkState raw [] [] "" None.

(** ** Keyword tests *)

Definition key_categories : list string :=
  ["auditor"; "legal"; "professional"; "travel"; "administrative"].

(** [any(kw in label for kw in kws)]. *)
Definition any_keyword (kws : list string) (label : string) : bool :=
  existsb (fun kw => contains kw label) kws.

(** The three tests of the calculation node, as written there. *)
Definition is_auditor (label : string) : bool := contains "auditor" label.
Definition is_legal_prof (label : string) : bool :=
  any_keyword ["legal"; "professional"] label.
Definition is_travel_admin (label : string) : bool :=
  any_keyword ["travel"; "administrative"] label.

Definition nl : string := String (ascii_of_nat 10) EmptyString.

(** The fallback analysis around its three holes. *)
Definition fallback_template (a l t : string) : string :=
  "Analysis Summary:" ++ nl ++
  "- Total audit-related fees: $" ++ a ++ nl ++
  "- Legal and professional services: $" ++ l ++ nl ++
  "- Travel and administrative costs: $" ++ t ++ nl ++
  "- No significant anomalies detected in expense patterns".

(** The fallback analysis of the calculation node. *)
Definition fallback_text (auditor_total legal_prof_total travel_admin_total : number)
  : result string :=
  a <- format_2f (pyval_of_number auditor_total) ;;
  l <- format_2f (pyval_of_number legal_prof_total) ;;
  t <- format_2f (pyval_of_number travel_admin_total) ;;
  ret (fallback_template a l t).

(** The dict stored by the calculation node. *)
Definition summary (a l t total : number) (text : string) : dict :=
  [ ("auditor_fees", pyval_of_number a);
    ("legal_and_professional_charges", pyval_of_number l);
    ("travel_and_administrative_expenses", pyval_of_number t);
    ("total_other_expenses", pyval_of_number total);
    ("ai_analysis", PStr text) ].

(** The dict the output node puts in place of a missing one. *)
Definition zero_summary : dict :=
  [ ("auditor_fees", PInt 0);
    ("legal_and_professional_charges", PInt 0);
    ("travel_and_administrative_expenses", PInt 0);
    ("total_other_expenses", PInt 0);
    ("ai_analysis", PStr "No analysis available") ].

(** [d.get(k, default)] on a dict. *)
Definition dict_get (d : dict) (k : string) (default : pyval) : pyval :=
  match lookup k d with
  | Some v => v
  | None => default
  end.

(** [bool(d)]: a dict is true when it has an item. *)
Definition dict_truthy (d : dict) : bool :=
  match d with
  | [] => false
  | _ :: _ => true
  end.

Definition rule : string :=
  "================================================================".

(** The report around its six holes. *)
Definition report_text (a l t total analysis count : string) : string :=
  nl ++
  rule ++ nl ++
  "         OTHER EXPENSE CALCULATION REPORT" ++ nl ++
  rule ++ nl ++
  nl ++
  "EXPENSE BREAKDOWN:" ++ nl ++
  nl ++
  "1. AUDITOR FEES" ++ nl ++
  "   Amount: $" ++ a ++ nl ++
  nl ++
  "2. LEGAL AND PROFESSIONAL CHARGES" ++ nl ++
  "   Amount: $" ++ l ++ nl ++
  nl ++
  "3. TRAVEL AND ADMINISTRATIVE EXPENSES" ++ nl ++
  "   Amount: $" ++ t ++ nl ++
  nl ++
  rule ++ nl ++
  "TOTAL OTHER EXPENSES: $" ++ total ++ nl ++
  rule ++ nl ++
  nl ++
  "AI ANALYSIS:" ++ nl ++
  analysis ++ nl ++
  nl ++
  "DETAILS:" ++ nl ++
  "• Total Items Processed: " ++ count ++ nl ++
  "• Reporting Period: Current" ++ nl ++
  "• Framework: Focus on key components with anomaly detection" ++ nl.

Section Nodes.
Context {RT : Runtime}.

(** [str(v)]. *)
Definition py_str (v : pyval) : string :=
  match v with
  | PStr s => s
  | PNone => "None"
  | PBool true => "True"
  | PBool false => "False"
  | PInt z => string_of_Z z
  | _ => repr_value v
  end.

(** [float(v)]. *)
Definition py_float (v : pyval) : result float :=
  match v with
  | PFloat x => ret x
  | PInt z => int_to_float z
  | PBool b => int_to_float (if b then 1 else 0)
  | PStr s =>
      match float_of_string s with
      | Some x => ret x
      | None => raise (ValueError "float" v)
      end
  | _ => raise (TypeError "float" v)
  end.

(** [str(exp.get("category", "")).lower()]. *)
Definition category_label (exp : pyval) : result string :=
  c <- py_get exp "category" (PStr "") ;;
  ret (lower (py_str c)).

(** [float(exp["amount"])]. *)
Definition amount_of (exp : pyval) : result float :=
  a <- py_getitem exp "amount" ;;
  py_float a.

(** [[x for x in l if p(x)]] where the test can raise. *)
Fixpoint filter_m {A} (p : A -> result bool) (l : list A) : result (list A) :=
  match l with
  | [] => ret []
  | x :: r =>
      b <- p x ;;
      keep <- filter_m p r ;;
      ret (if b then x :: keep else keep)
  end.

(** The test of the extraction node on one record. *)
Definition is_relevant (exp : pyval) : result bool :=
  label <- category_label exp ;;
  ret (any_keyword key_categories label).

Definition extract_body (state : ExpenseState) : result ExpenseState :=
  all_expenses <- py_get (raw_data state) "expenses" (PList []) ;;
  exps <- py_iter all_expenses ;;
  relevant_expenses <- filter_m is_relevant exps ;;
  ret (set_expense_items relevant_expenses state).

Definition extract_other_expenses_node (state : ExpenseState) : ExpenseState :=
  match extract_body state with
  | inr state' => state'
  | inl e => set_error (Some ("Extraction error: " ++ exn_str e)) state
  end.

(** [sum(float(exp["amount"]) for exp in items if cond(label))] with the
    running total [acc]: the items are taken in order, the test comes
    before the amount, and the first exception ends the sum. *)
Fixpoint sum_where (cond : string -> bool) (items : list pyval) (acc : number)
  : result number :=
  match items with
  | [] => ret acc
  | exp :: rest =>
      label <- category_label exp ;;
      if cond label then
        x <- amount_of exp ;;
        acc' <- num_add acc (NFloat x) ;;
        sum_where cond rest acc'
      else sum_where cond rest acc
  end.

(** [sum] starts from the integer [0] and adds from left to right, as the
    builtin is defined; an interpreter that compensates the rounding of
    float sums can differ from this in the last bits of an inexact sum. *)
Definition bucket_sum (cond : string -> bool) (items : list pyval) : result number :=
  sum_where cond items (NInt 0).

(** The inner [try ... except:] of the calculation node. *)
Definition analysis_text (items : list pyval) (a l t : number) : result string :=
  match llm_analysis items with
  | Some text => ret text
  | None => fallback_text a l t
  end.

Definition calculate_body (state : ExpenseState) : result ExpenseState :=
  let items := expense_items state in
  auditor_total <- bucket_sum is_auditor items ;;
  legal_prof_total <- bucket_sum is_legal_prof items ;;
  travel_admin_total <- bucket_sum is_travel_admin items ;;
  partial <- num_add auditor_total legal_prof_total ;;
  total_other_expenses <- num_add partial travel_admin_total ;;
  calculation_text <-
    analysis_text items auditor_total legal_prof_total travel_admin_total ;;
  ret (set_calculated
         (summary auditor_total legal_prof_total travel_admin_total
                  total_other_expenses calculation_text)
         state).

Definition calculate_other_expenses_node (state : ExpenseState) : ExpenseState :=
  match calculate_body state with
  | inr state' => state'
  | inl e => set_error (Some ("Calculation error: " ++ exn_str e)) state
  end.

(** The f-string of the output node, its holes filled left to right. *)
Definition render (calc : dict) (items : list pyval) : result string :=
  a <- format_2f (dict_get calc "auditor_fees" (PInt 0)) ;;
  l <- format_2f (dict_get calc "legal_and_professional_charges" (PInt 0)) ;;
  t <- format_2f (dict_get calc "travel_and_administrative_expenses" (PInt 0)) ;;
  total <- format_2f (dict_get calc "total_other_expenses" (PInt 0)) ;;
  let analysis := py_str (dict_get calc "ai_analysis" (PStr "No analysis")) in
  ret (report_text a l t total analysis (string_of_nat (List.length items))).

(** The substitution comes first and stays when the f-string raises. *)
Definition generate_output_node (state : ExpenseState) : ExpenseState :=
  let state1 :=
    if dict_truthy (calculated_other_expenses state) then state
    else set_calculated zero_summary state in
  match render (calculated_other_expenses state1) (expense_items state1) with
  | inr out => set_output out state1
  | inl e => set_error (Some ("Output generation error: " ++ exn_str e)) state1
  end.

(** [build_graph]: START, extract, calculate, output, END. *)
Definition run_graph (state : ExpenseState) : ExpenseState :=
  generate_output_node
    (calculate_other_expenses_node (extract_other_expenses_node state)).

End Nodes.

(** ** Specification vocabulary *)

(** [l1] is [l2] with some items left out, the rest in place. *)
Inductive Subseq {A : Type} : list A -> list A -> Prop :=
| Subseq_nil : Subseq [] []
| Subseq_skip x l1 l2 : Subseq l1 l2 -> Subseq l1 (x :: l2)
| Subseq_keep x l1 l2 : Subseq l1 l2 -> Subseq (x :: l1) (x :: l2).

(** The category label of a record, coerced to a string and lowercased; a
    record without the field has the empty label. *)
Definition label_of {RT : Runtime} (r : dict) : string :=
  lower (py_str (dict_get r "category" (PStr ""))).

(** The label holds one of the five keywords. *)
Definition Relevant {RT : Runtime} (r : dict) : Prop :=
  exists kw,
    In kw ["auditor"; "legal"; "professional"; "travel"; "administrative"] /\
    Substring kw (label_of r).

Definition relevantb {RT : Runtime} (r : dict) : bool :=
  any_keyword key_categories (label_of r).

(** A list as the extraction node leaves it: on every item the node's test
    returns true. *)
Definition Filtered {RT : Runtime} (items : list pyval) : Prop :=
  Forall (fun exp => is_relevant exp = inr true) items.

(** The label and the amount of an item that has them. *)
Definition item_label {RT : Runtime} (exp : pyval) : string :=
  match category_label exp with
  | inr label => label
  | inl _ => ""
  end.

Definition item_amount {RT : Runtime} (exp : pyval) : float :=
  match amount_of exp with
  | inr x => x
  | inl _ => S754_nan
  end.

(** An item the calculation can read: a record with an amount that
    [float] accepts. *)
Definition readable {RT : Runtime} (exp : pyval) : bool :=
  negb (raises (category_label exp)) && negb (raises (amount_of exp)).

(** The coerced amounts of the items whose label passes [cond], in order. *)
Definition matching_amounts {RT : Runtime} (cond : string -> bool)
    (items : list pyval) : list float :=
  map item_amount (filter (fun exp => cond (item_label exp)) items).

(** [sum(xs)] for floats [xs]: the integer [0] when there is none, else
    [((0 + x1) + x2) + ...]. *)
Definition py_sum (xs : list float) : number :=
  match xs with
  | [] => NInt 0
  | x :: r => NFloat (fold_left float_add r (float_add (S754_zero false) x))
  end.

(** [0 <= n]. *)
Definition number_nonneg (n : number) : bool :=
  match n with
  | NInt z => (0 <=? z)%Z
  | NFloat x => float_nonneg x
  end.

(** The numbers a sum that starts from [0] can return. *)
Definition sum_value (n : number) : bool :=
  match n with
  | NInt 0 => true
  | NInt _ => false
  | NFloat _ => true
  end.

(** The report for the all-zero summary over [n] items. *)
Definition zero_report (n : nat) : string :=
  report_text "0.00" "0.00" "0.00" "0.00" "No analysis available" (string_of_nat n).

(** [f"{n:.2f}"] for a number a sum returns. *)
Definition format_number (n : number) : string :=
  match n with
  | NInt z => format_float_2f (float_of_Z z)
  | NFloat x => format_float_2f x
  end.

(** The key under which the calculation stores each bucket and the test
    that decides the bucket. *)
Definition bucket_tests : list (string * (string -> bool)) :=
  [ ("auditor_fees", is_auditor);
    ("legal_and_professional_charges", is_legal_prof);
    ("travel_and_administrative_expenses", is_travel_admin) ].

(** [0 <= v] for a stored value. *)
Definition value_nonneg (v : pyval) : bool :=
  match v with
  | PInt z => (0 <=? z)%Z
  | PFloat x => float_nonneg x
  | _ => false
  end.

(** Every bucket total of a stored summary is a non-negative number. *)
Definition bucket_totals_nonneg (calc : dict) : Prop :=
  forall key cond, In (key, cond) bucket_tests ->
    exists v, lookup key calc = Some v /\ value_nonneg v = true.



(** The three nodes of the graph, in the order they run. *)
Definition nodes {RT : Runtime} : list (ExpenseState -> ExpenseState) :=
  [ extract_other_expenses_node;
    calculate_other_expenses_node;
    generate_output_node ].

(** ** A runtime without a chat model

    Used to run the nodes on concrete data: the chat model is unreachable,
    [float] reads plain decimal integers, and the texts of [repr] and
    [str(e)] are short stand-ins. *)

Definition digit_of (c : ascii) : option Z :=
  let n := nat_of_ascii c in
  if (48 <=? n)%nat && (n <=? 57)%nat then Some (Z.of_nat (n - 48)) else None.

Fixpoint digits_value (s : string) (acc : Z) : option Z :=
  match s with
  | EmptyString => Some acc
  | String c r =>
      match digit_of c with
      | Some d => digits_value r (10 * acc + d)
      | None => None
      end
  end.

Definition integer_float (s : string) : option float :=
  match s with
  | EmptyString => None
  | String "-" EmptyString => None
  | String "-" r => option_map (fun z => SFopp (float_of_Z z)) (digits_value r 0)
  | _ => option_map float_of_Z (digits_value s 0)
  end.

Definition exn_name (e : exn) : string :=
  match e with
  | AttributeError _ attr => "object has no attribute '" ++ attr ++ "'"
  | KeyError k => "'" ++ k ++ "'"
  | TypeError op _ => "unsupported operand for " ++ op
  | ValueError op _ => "invalid value for " ++ op
  | OverflowError => "int too large to convert to float"
  end.

Definition offline_runtime : Runtime :=
  {| repr_value := fun _ => "<object>";
     float_of_string := integer_float;
     exn_str := exn_name;
     llm_analysis := fun _ => None |}.

(** ** Sample data *)

Definition expense (category : string) (amount : pyval) : pyval :=
  PDict [("category", PStr category); ("amount", amount)].

(** The five records of the scenario (the fallback dataset of
    [fetch_ac_data] without ids and dates). *)
Definition five_records : list pyval :=
  [ expense "Auditor Fees" (PInt 5000);
    expense "Legal Fees" (PInt 3500);
    expense "Travel Expenses" (PInt 2200);
    expense "Professional Services" (PInt 1800);
    expense "Administrative" (PInt 900) ].

Definition raw_of (records : list pyval) : pyval :=
  PDict [("expenses", PList records)].

(** Four records for the extraction: one kept, one of another kind, one
    without a category, one kept whatever the case of its label. *)
Definition sample_records : list dict :=
  [ [("category", PStr "Auditor Fees"); ("amount", PInt 5000)];
    [("category", PStr "Office Rent"); ("amount", PInt 700)];
    [("amount", PInt 40)];
    [("category", PStr "LEGAL retainer"); ("amount", PInt 3500)] ].

(** A state after extraction with these items. *)
Definition extracted (items : list pyval) : ExpenseState :=
  mkState (raw_of items) items [] "" None.

(** ** Shapes of input *)

Definition is_record (v : pyval) : bool :=
  match v with
  | PDict _ => true
  | _ => false
  end.

(** What the extraction can iterate to the end: a list of records, or a
    dict or a string with nothing in it. *)
Definition well_shaped_expenses (v : pyval) : bool :=
  match v with
  | PList l => forallb is_record l
  | PDict [] => true
  | PStr EmptyString => true
  | _ => false
  end.

(** An API reply the extraction accepts: a dict whose ["expenses"], when
    present, is well shaped. *)
Definition well_shaped (raw : pyval) : bool :=
  match raw with
  | PDict d => well_shaped_expenses (dict_get d "expenses" (PList []))
  | _ => false
  end.

(** An item one sum gets past: a record whose amount [float] accepts if
    the sum's test passes its label. *)
Definition summable {RT : Runtime} (cond : string -> bool) (exp : pyval) : bool :=
  match category_label exp with
  | inl _ => false
  | inr label => if cond label then negb (raises (amount_of exp)) else true
  end.

(** An item all three sums get past. *)
Definition computable {RT : Runtime} (exp : pyval) : bool :=
  summable is_auditor exp && summable is_legal_prof exp &&
  summable is_travel_admin exp.

(** The three texts an error message can start with. *)
Definition error_prefixes : list string :=
  ["Extraction error: "; "Calculation error: "; "Output generation error: "].

(** ** Fetching and the main program *)

(** The arguments of [requests.get]. *)
Record request := mkRequest {
  req_url : string;
  req_headers : list (string * string);
  req_timeout : Z
}.

(** What [requests.get], [raise_for_status] and [response.json()] come to:
    the decoded body, a [RequestException], or any other exception. *)
Inductive http_result :=
| HttpJson (body : pyval)
| HttpRequestException
| HttpOtherException.

(** [os.getenv(name, default)]. *)
Definition getenv_or (getenv : string -> option string) (name default : string)
  : string :=
  match getenv name with
  | Some v => v
  | None => default
  end.

Definition AC_API_KEY (getenv : string -> option string) : string :=
  getenv_or getenv "AC_API_KEY" "".

Definition AC_API_URL (getenv : string -> option string) : string :=
  getenv_or getenv "AC_API_URL" "https://sofixaca.vercel.app/api/expenses".

(** The mock data of [fetch_ac_data]. *)
Definition mock_expense (id : Z) (category : string) (amount : Z) (date : string)
  : pyval :=
  PDict [ ("id", PInt id); ("category", PStr category);
          ("amount", PInt amount); ("date", PStr date) ].

Definition mock_expenses : list pyval :=
  [ mock_expense 1 "Auditor Fees" 5000 "2024-01-15";
    mock_expense 2 "Legal Fees" 3500 "2024-01-20";
    mock_expense 3 "Travel Expenses" 2200 "2024-01-25";
    mock_expense 4 "Professional Services" 1800 "2024-02-05";
    mock_expense 5 "Administrative" 900 "2024-02-10" ].

Definition mock_data : pyval := PDict [("expenses", PList mock_expenses)].

(** [fetch_ac_data]: [None] when an exception other than a
    [RequestException] leaves the function. *)
Definition fetch_ac_data (getenv : string -> option string)
    (http : request -> http_result) : option pyval :=
  let headers :=
    if String.eqb (AC_API_KEY getenv) "" then []
    else [("x-api-key", AC_API_KEY getenv)] in
  match http (mkRequest (AC_API_URL getenv) headers 10) with
  | HttpJson body => Some body
  | HttpRequestException => Some mock_data
  | HttpOtherException => None
  end.

(** What the program does to the outside. *)
Inductive event :=
| Print (text : string)
| WriteJson (path : string) (content : dict).

(** How the program ends: normally, or with an uncaught exception. *)
Inductive ending :=
| Completed
| Aborted.

(** [if x:] on a value that is [None] or a string. *)
Definition error_truthy (e : option string) : bool :=
  match e with
  | None => false
  | Some EmptyString => false
  | Some _ => true
  end.

Definition result_file : string := "other_expenses_result.json".

(** [main]: what it prints and writes, in order, and how it ends.
    [disk_ok] tells whether the result file can be opened for writing. *)
Definition main {RT : Runtime} (getenv : string -> option string)
    (http : request -> http_result) (disk_ok : bool) : list event * ending :=
  let start := Print "[START] Fetching data from AC API..." in
  match fetch_ac_data getenv http with
  | None => ([start], Aborted)
  | Some raw_data =>
      let processing :=
        Print "[PROCESSING] Processing expenses with LangGraph..." in
      let final_state := run_graph (initial_state raw_data) in
      if error_truthy (error final_state) then
        ([start; processing;
          Print ("[ERROR] Error: " ++
                 match error final_state with Some msg => msg | None => "None" end)],
         Completed)
      else if disk_ok then
        ([start; processing;
          Print (output final_state);
          WriteJson result_file (calculated_other_expenses final_state);
          Print (nl ++ "[SUCCESS] Results saved to other_expenses_result.json")],
         Completed)
      else
        ([start; processing; Print (output final_state)], Aborted)
  end.

(** The file the program wrote, if it wrote one. *)
Fixpoint written (trace : list event) : option dict :=
  match trace with
  | [] => None
  | WriteJson _ content :: _ => Some content
  | Print _ :: rest => written rest
  end.

(** The texts the program printed. *)
Fixpoint printed (trace : list event) : list string :=
  match trace with
  | [] => []
  | Print text :: rest => text :: printed rest
  | WriteJson _ _ :: rest => printed rest
  end.

(** ** What each node computes from what it reads *)

(** The list the extraction stores, from the reply alone. *)
Definition extracted_items {RT : Runtime} (raw : pyval) : result (list pyval) :=
  all_expenses <- py_get raw "expenses" (PList []) ;;
  exps <- py_iter all_expenses ;;
  filter_m is_relevant exps.

(** The summary the calculation stores, from the item list alone. *)
Definition calculated_summary {RT : Runtime} (items : list pyval) : result dict :=
  auditor_total <- bucket_sum is_auditor items ;;
  legal_prof_total <- bucket_sum is_legal_prof items ;;
  travel_admin_total <- bucket_sum is_travel_admin items ;;
  partial <- num_add auditor_total legal_prof_total ;;
  total_other_expenses <- num_add partial travel_admin_total ;;
  calculation_text <-
    analysis_text items auditor_total legal_prof_total travel_admin_total ;;
  ret (summary auditor_total legal_prof_total travel_admin_total
               total_other_expenses calculation_text).

(** The analysis stored when there is no item: the chat model's reply on
    the empty list, or the fallback text with zeros. *)
Definition empty_analysis {RT : Runtime} : string :=
  match llm_analysis [] with
  | Some text => text
  | None => fallback_template "0.00" "0.00" "0.00"
  end.

(** A digit or a minus sign: the characters of [str(z)]. *)
Definition is_plain (c : ascii) : bool :=
  let n := nat_of_ascii c in
  ((48 <=? n)%nat && (n <=? 57)%nat) || (n =? 45)%nat.

(** A category that is no text and no container: null, a boolean or a
    whole number. *)
Definition is_bare_scalar (v : pyval) : bool :=
  match v with
  | PNone | PBool _ | PInt _ => true
  | _ => false
  end.

(** One record with a label in capitals. *)
Definition shouting_record : dict :=
  [("category", PStr "Q3 TRAVEL & Lodging"); ("amount", PInt 120)].

(** An HTTP layer that is out of reach. *)
Definition unreachable : request -> http_result :=
  fun _ => HttpRequestException.

(** A runtime whose chat model always gives the same reply. *)
Definition chatty_runtime : Runtime :=
  {| repr_value := fun _ => "<object>";
     float_of_string := integer_float;
     exn_str := exn_name;
     llm_analysis := fun _ => Some "Nothing unusual." |}.

(** The same interpreter with another chat model: what a later run of
    the graph meets, since the model is asked anew in every run. *)
Definition with_llm (RT : Runtime) (llm : list pyval -> option string) : Runtime :=
  {| repr_value := @repr_value RT;
     float_of_string := @float_of_string RT;
     exn_str := @exn_str RT;
     llm_analysis := llm |}.

(** ** Strings: [contains] decides [Substring] *)

Lemma prefix_iff (kw s : string) :
  String.prefix kw s = true <-> exists post, s = kw ++ post.
Proof.
  revert s; induction kw as [|a kw IH]; intros s; simpl.
  - split; [intros _; now exists s | now destruct s].
  - destruct s as [|b s].
    + split; [discriminate | intros [post H]; discriminate].
    + simpl. destruct (ascii_dec a b) as [->|Hab].
      * rewrite IH. split; intros [post H]; exists post.
        -- now rewrite H.
        -- now injection H.
      * split; [discriminate|].
        intros [post H]. injection H as H1 _. now symmetry in H1.
Qed.

Lemma contains_iff (kw s : string) :
  contains kw s = true <-> Substring kw s.
Proof.
  unfold Substring. induction s as [|c s IH]; cbn [contains].
  - rewrite orb_false_r, prefix_iff. split.
    + intros [post H]. now exists "", post.
    + intros [pre [post H]]. destruct pre; simpl in H.
      * now exists post.
      * discriminate.
  - rewrite orb_true_iff, prefix_iff, IH. split.
    + intros [[post H]|[pre [post H]]].
      * now exists "", post.
      * exists (String c pre), post. simpl. now rewrite H.
    + intros [pre [post H]]. destruct pre as [|c' pre]; simpl in H.
      * left. now exists post.
      * right. injection H as _ H. now exists pre, post.
Qed.

Lemma any_keyword_iff (kws : list string) (label : string) :
  any_keyword kws label = true <->
  exists kw, In kw kws /\ Substring kw label.
Proof.
  unfold any_keyword. rewrite existsb_exists.
  split; intros [kw [Hin H]]; exists kw; split; auto; now apply contains_iff.
Qed.

Lemma relevantb_iff {RT : Runtime} (r : dict) :
  relevantb r = true <-> Relevant r.
Proof. apply any_keyword_iff. Qed.

(** ** The extraction node *)

Lemma Subseq_filter {A} (f : A -> bool) (l : list A) : Subseq (filter f l) l.
Proof.
  induction l as [|x l IH]; simpl.
  - constructor.
  - destruct (f x); now constructor.
Qed.

Lemma Subseq_map {A B} (g : A -> B) (l1 l2 : list A) :
  Subseq l1 l2 -> Subseq (map g l1) (map g l2).
Proof. induction 1; simpl; now constructor. Qed.

(** On a record the test of the extraction node never raises. *)
Lemma is_relevant_record {RT : Runtime} (r : dict) :
  is_relevant (PDict r) = inr (relevantb r).
Proof. reflexivity. Qed.

Lemma filter_m_records {RT : Runtime} (recs : list dict) :
  filter_m is_relevant (map PDict recs) = inr (map PDict (filter relevantb recs)).
Proof.
  induction recs as [|r recs IH]; cbn [map filter filter_m].
  - reflexivity.
  - rewrite is_relevant_record, IH. cbn [bind ret].
    now destruct (relevantb r).
Qed.

Lemma extract_records {RT : Runtime} (s : ExpenseState) (d : dict) (recs : list dict) :
  raw_data s = PDict d ->
  lookup "expenses" d = Some (PList (map PDict recs)) ->
  extract_other_expenses_node s =
  set_expense_items (map PDict (filter relevantb recs)) s.
Proof.
  intros Hraw Hexp. unfold extract_other_expenses_node, extract_body.
  rewrite Hraw. simpl. rewrite Hexp. simpl.
  now rewrite filter_m_records.
Qed.

(** A record without a category has the empty label, which holds no keyword. *)
Lemma missing_category_irrelevant {RT : Runtime} (r : dict) :
  lookup "category" r = None -> label_of r = "" /\ relevantb r = false.
Proof.
  intros H. unfold relevantb, label_of, dict_get. rewrite H. now split.
Qed.

(** C2. For every list of records, the extraction node returns exactly the
    records whose category label, coerced to a string and lowercased,
    contains one of auditor, legal, professional, travel, administrative:
    the result is the input filtered, so a subsequence of it in the same
    order with nothing merged; a record is kept if and only if its label
    contains a keyword; a record without a category has the empty label
    and is left out, and no error is recorded. *)
Theorem extract_returns_relevant_records {RT : Runtime}
    (s : ExpenseState) (d : dict) (recs : list dict) :
  raw_data s = PDict d ->
  lookup "expenses" d = Some (PList (map PDict recs)) ->
  let s' := extract_other_expenses_node s in
  expense_items s' = map PDict (filter relevantb recs) /\
  Subseq (expense_items s') (map PDict recs) /\
  (forall r, In r recs -> (In (PDict r) (expense_items s') <-> Relevant r)) /\
  (forall r, lookup "category" r = None ->
             label_of r = "" /\ ~ In (PDict r) (expense_items s')) /\
  error s' = error s /\
  raw_data s' = raw_data s /\
  calculated_other_expenses s' = calculated_other_expenses s /\
  output s' = output s.
Proof.
  intros Hraw Hexp s'. subst s'. rewrite (extract_records s d recs Hraw Hexp).
  simpl. repeat split; auto.
  - apply Subseq_map, Subseq_filter.
  - intros Hin. apply in_map_iff in Hin as [r' [Heq Hin]].
    injection Heq as ->. apply filter_In in Hin as [_ Hin].
    now apply relevantb_iff.
  - intros HR. apply in_map_iff. exists r. split; auto.
    apply filter_In. split; auto. now apply relevantb_iff.
  - now apply missing_category_irrelevant.
  - intros Hin. apply in_map_iff in Hin as [r' [Heq Hin]].
    injection Heq as ->. apply filter_In in Hin as [_ Hin].
    apply missing_category_irrelevant in H as [_ H]. congruence.
Qed.

(** What the extraction node stores is [Filtered]. *)
Lemma filter_m_Forall {A} (p : A -> result bool) (l out : list A) :
  filter_m p l = inr out -> Forall (fun x => p x = inr true) out.
Proof.
  revert out; induction l as [|x l IH]; cbn [filter_m]; intros out H.
  - injection H as <-. constructor.
  - destruct (p x) as [e|b] eqn:Hp; cbn [bind] in H; [discriminate|].
    destruct (filter_m p l) as [e|keep]; cbn [bind ret] in H; [discriminate|].
    injection H as <-. specialize (IH keep eq_refl).
    destruct b; auto.
Qed.

Lemma extract_keeps_filtered {RT : Runtime} (s : ExpenseState) :
  Filtered (expense_items s) ->
  Filtered (expense_items (extract_other_expenses_node s)).
Proof.
  intros Hs. unfold extract_other_expenses_node, extract_body.
  destruct (py_get _ _ _) as [e|all_expenses]; cbn [bind]; auto.
  destruct (py_iter all_expenses) as [e|exps]; cbn [bind]; auto.
  destruct (filter_m is_relevant exps) as [e|keep] eqn:Hf; cbn [bind ret]; auto.
  cbn [set_expense_items expense_items]. now apply filter_m_Forall in Hf.
Qed.

Lemma extract_initial_filtered {RT : Runtime} (raw : pyval) :
  Filtered (expense_items (extract_other_expenses_node (initial_state raw))).
Proof. apply extract_keeps_filtered. constructor. Qed.

(** ** The calculation node: failure *)

Lemma raises_bind_l {A B} (c : result A) (k : A -> result B) :
  raises c = true -> raises (bind c k) = true.
Proof. now destruct c. Qed.

Lemma raises_bind_r {A B} (c : result A) (k : A -> result B) :
  (forall a, raises (k a) = true) -> raises (bind c k) = true.
Proof. destruct c; cbn [bind raises]; auto. Qed.

Lemma is_relevant_inv {RT : Runtime} (exp : pyval) :
  is_relevant exp = inr true ->
  exists label,
    category_label exp = inr label /\ any_keyword key_categories label = true.
Proof.
  unfold is_relevant. destruct (category_label exp) as [e|label]; cbn [bind ret].
  - discriminate.
  - unfold ret. intros H. exists label. split; congruence.
Qed.

(** The five keywords of the extraction are the keywords of the three
    buckets. *)
Lemma key_categories_buckets (label : string) :
  any_keyword key_categories label =
  is_auditor label || is_legal_prof label || is_travel_admin label.
Proof.
  unfold is_auditor, is_legal_prof, is_travel_admin, key_categories, any_keyword.
  cbn [existsb]. rewrite !orb_false_r.
  now rewrite !orb_assoc.
Qed.

(** A sum stops at the first matching item whose amount cannot be read. *)
Lemma sum_where_raises {RT : Runtime} (cond : string -> bool)
    (items : list pyval) (exp : pyval) (label : string) :
  In exp items ->
  category_label exp = inr label ->
  cond label = true ->
  raises (amount_of exp) = true ->
  forall acc, raises (sum_where cond items acc) = true.
Proof.
  intros Hin Hlabel Hcond Hbad.
  induction items as [|x items IH]; [contradiction|].
  intros acc. cbn [sum_where]. destruct Hin as [->|Hin].
  - rewrite Hlabel. cbn [bind]. rewrite Hcond. now apply raises_bind_l.
  - apply raises_bind_r. intros l'. destruct (cond l'); [|now apply IH].
    apply raises_bind_r. intros x'. apply raises_bind_r. intros acc'. now apply IH.
Qed.

Lemma calculate_body_raises {RT : Runtime} (s : ExpenseState) (exp : pyval) :
  In exp (expense_items s) ->
  is_relevant exp = inr true ->
  raises (amount_of exp) = true ->
  raises (calculate_body s) = true.
Proof.
  intros Hin Hrel Hbad.
  apply is_relevant_inv in Hrel as [label [Hlabel Hkw]].
  rewrite key_categories_buckets, !orb_true_iff in Hkw.
  unfold calculate_body, bucket_sum.
  destruct Hkw as [[Ha|Hl]|Ht].
  - apply raises_bind_l. now apply sum_where_raises with exp label.
  - apply raises_bind_r. intros a. apply raises_bind_l.
    now apply sum_where_raises with exp label.
  - apply raises_bind_r. intros a. apply raises_bind_r. intros l.
    apply raises_bind_l. now apply sum_where_raises with exp label.
Qed.

Lemma calculate_node_raises {RT : Runtime} (s : ExpenseState) :
  raises (calculate_body s) = true ->
  exists e,
    calculate_other_expenses_node s =
    set_error (Some ("Calculation error: " ++ exn_str e)) s.
Proof.
  unfold calculate_other_expenses_node.
  destruct (calculate_body s) as [e|s']; [|discriminate].
  intros _. now exists e.
Qed.

Lemma calculate_fails_on_unreadable {RT : Runtime} (s : ExpenseState) (exp : pyval) :
  Filtered (expense_items s) ->
  In exp (expense_items s) ->
  raises (amount_of exp) = true ->
  exists e,
    calculate_other_expenses_node s =
    set_error (Some ("Calculation error: " ++ exn_str e)) s.
Proof.
  intros HF Hin Hbad. apply calculate_node_raises.
  apply calculate_body_raises with exp; auto.
  unfold Filtered in HF. rewrite Forall_forall in HF. now apply HF.
Qed.

(** ** The output node *)

Lemma generate_without_summary {RT : Runtime} (s : ExpenseState) :
  calculated_other_expenses s = [] ->
  generate_output_node s =
  set_output (zero_report (List.length (expense_items s)))
             (set_calculated zero_summary s).
Proof.
  intros H. unfold generate_output_node. rewrite H. reflexivity.
Qed.

(** C4. When a filtered item list holds an item whose amount [float] does
    not accept, in a state where nothing has been aggregated yet, the
    calculation node fails as a whole: it stores no summary and records a
    calculation error; the output node then stores the all-zero summary and
    its report, and the error stays recorded. *)
Theorem bad_amount_fails_aggregation {RT : Runtime}
    (s : ExpenseState) (exp a : pyval) :
  Filtered (expense_items s) ->
  In exp (expense_items s) ->
  py_getitem exp "amount" = inr a ->
  raises (py_float a) = true ->
  calculated_other_expenses s = [] ->
  let s1 := calculate_other_expenses_node s in
  let s2 := generate_output_node s1 in
  (exists e, s1 = set_error (Some ("Calculation error: " ++ exn_str e)) s) /\
  calculated_other_expenses s1 = [] /\
  s2 = set_output (zero_report (List.length (expense_items s)))
                  (set_calculated zero_summary s1) /\
  calculated_other_expenses s2 = zero_summary /\
  error s2 = error s1 /\
  error s2 <> None.
Proof.
  intros HF Hin Hget Hbad Hcalc s1 s2.
  assert (Hraise : raises (amount_of exp) = true).
  { unfold amount_of. rewrite Hget. exact Hbad. }
  destruct (calculate_fails_on_unreadable s exp HF Hin Hraise) as [e He].
  assert (H1 : calculated_other_expenses s1 = []).
  { subst s1. rewrite He. exact Hcalc. }
  assert (H2 : s2 = set_output (zero_report (List.length (expense_items s)))
                               (set_calculated zero_summary s1)).
  { subst s2. rewrite (generate_without_summary s1 H1).
    subst s1. now rewrite He. }
  repeat split.
  - now exists e.
  - exact H1.
  - exact H2.
  - now rewrite H2.
  - now rewrite H2.
  - rewrite H2. subst s1. rewrite He. discriminate.
Qed.

(** C10. The extraction reads the category with a default, so a record
    without one passes its test without an exception; the calculation
    indexes the amount, so a record without one raises [KeyError], and a
    filtered item list holding such a record makes the whole calculation
    node fail with a recorded error and no summary stored. *)
Theorem missing_amount_fails_aggregation {RT : Runtime}
    (s : ExpenseState) (d : dict) :
  Filtered (expense_items s) ->
  In (PDict d) (expense_items s) ->
  lookup "amount" d = None ->
  let s1 := calculate_other_expenses_node s in
  amount_of (PDict d) = inl (KeyError "amount") /\
  (exists e, s1 = set_error (Some ("Calculation error: " ++ exn_str e)) s) /\
  error s1 <> None /\
  calculated_other_expenses s1 = calculated_other_expenses s /\
  (forall r, lookup "category" r = None -> is_relevant (PDict r) = inr false).
Proof.
  intros HF Hin Hno s1.
  assert (Hkey : amount_of (PDict d) = inl (KeyError "amount")).
  { unfold amount_of, py_getitem. now rewrite Hno. }
  assert (Hraise : raises (amount_of (PDict d)) = true) by now rewrite Hkey.
  destruct (calculate_fails_on_unreadable s _ HF Hin Hraise) as [e He].
  subst s1. rewrite He. repeat split; auto.
  - now exists e.
  - discriminate.
  - intros r Hr. rewrite is_relevant_record.
    now destruct (missing_category_irrelevant r Hr) as [_ ->].
Qed.

(** ** The calculation node: success *)

Lemma readable_inv {RT : Runtime} (exp : pyval) :
  readable exp = true ->
  category_label exp = inr (item_label exp) /\
  amount_of exp = inr (item_amount exp).
Proof.
  unfold readable, item_label, item_amount.
  destruct (category_label exp), (amount_of exp); cbn; intros H;
    try discriminate; auto.
Qed.

Lemma matching_amounts_cons {RT : Runtime} cond (exp : pyval) (items : list pyval) :
  matching_amounts cond (exp :: items) =
  if cond (item_label exp)
  then item_amount exp :: matching_amounts cond items
  else matching_amounts cond items.
Proof.
  unfold matching_amounts. cbn [filter]. now destruct (cond (item_label exp)).
Qed.

Lemma sum_where_float {RT : Runtime} cond (items : list pyval) :
  Forall (fun exp => readable exp = true) items ->
  forall a,
    sum_where cond items (NFloat a) =
    inr (NFloat (fold_left float_add (matching_amounts cond items) a)).
Proof.
  induction 1 as [|exp items Hexp _ IH]; intros a.
  - reflexivity.
  - destruct (readable_inv exp Hexp) as [Hl Ha].
    cbn [sum_where]. rewrite Hl. cbn [bind].
    rewrite matching_amounts_cons.
    destruct (cond (item_label exp)); [|apply IH].
    rewrite Ha. cbn [bind num_add ret]. now rewrite IH.
Qed.

(** On readable items the loop of the node is the sum of the matching
    amounts. *)
Lemma bucket_sum_spec {RT : Runtime} cond (items : list pyval) :
  Forall (fun exp => readable exp = true) items ->
  bucket_sum cond items = inr (py_sum (matching_amounts cond items)).
Proof.
  unfold bucket_sum. induction 1 as [|exp items Hexp Hitems IH].
  - reflexivity.
  - destruct (readable_inv exp Hexp) as [Hl Ha].
    cbn [sum_where]. rewrite Hl. cbn [bind].
    rewrite matching_amounts_cons.
    destruct (cond (item_label exp)); [|apply IH].
    rewrite Ha. cbn [bind]. change (num_add (NInt 0) (NFloat (item_amount exp)))
      with (@inr exn _ (NFloat (float_add (S754_zero false) (item_amount exp)))).
    cbn [bind]. now rewrite sum_where_float.
Qed.

Lemma py_sum_value (xs : list float) : sum_value (py_sum xs) = true.
Proof. now destruct xs. Qed.

Lemma num_add_values (a b : number) :
  sum_value a = true -> sum_value b = true ->
  exists c, num_add a b = inr c /\ sum_value c = true.
Proof.
  destruct a as [[| |]|x], b as [[| |]|y]; try discriminate; intros _ _.
  - now exists (NInt 0).
  - now exists (NFloat (float_add (S754_zero false) y)).
  - now exists (NFloat (float_add x (S754_zero false))).
  - now exists (NFloat (float_add x y)).
Qed.

Lemma format_2f_value (n : number) :
  sum_value n = true ->
  format_2f (pyval_of_number n) = inr (format_number n).
Proof. destruct n as [[| |]|x]; try discriminate; reflexivity. Qed.

Lemma fallback_text_values (a l t : number) :
  sum_value a = true -> sum_value l = true -> sum_value t = true ->
  fallback_text a l t =
  inr (fallback_template (format_number a) (format_number l) (format_number t)).
Proof.
  intros Ha Hl Ht. unfold fallback_text.
  now rewrite !format_2f_value.
Qed.

Lemma analysis_text_values {RT : Runtime} (items : list pyval) (a l t : number) :
  sum_value a = true -> sum_value l = true -> sum_value t = true ->
  exists text, analysis_text items a l t = inr text.
Proof.
  intros Ha Hl Ht. unfold analysis_text.
  destruct (llm_analysis items) as [text|].
  - now exists text.
  - rewrite fallback_text_values by assumption. eauto.
Qed.

(** On readable items the node succeeds and stores the three sums, their
    sum and a text. *)
Lemma calculate_readable {RT : Runtime} (s : ExpenseState) :
  Forall (fun exp => readable exp = true) (expense_items s) ->
  let items := expense_items s in
  let a := py_sum (matching_amounts is_auditor items) in
  let l := py_sum (matching_amounts is_legal_prof items) in
  let t := py_sum (matching_amounts is_travel_admin items) in
  exists partial total text,
    num_add a l = inr partial /\
    num_add partial t = inr total /\
    sum_value total = true /\
    analysis_text items a l t = inr text /\
    calculate_other_expenses_node s =
    set_calculated (summary a l t total text) s.
Proof.
  intros Hr items a l t.
  destruct (num_add_values a l) as [partial [Hp Vp]]; try apply py_sum_value.
  destruct (num_add_values partial t) as [total [Ht Vt]];
    try apply py_sum_value; auto.
  destruct (analysis_text_values items a l t) as [text Htext];
    try apply py_sum_value.
  exists partial, total, text. repeat split; auto.
  unfold calculate_other_expenses_node, calculate_body.
  rewrite !bucket_sum_spec by assumption. cbn [bind].
  fold items. fold a l t. rewrite Hp. cbn [bind]. rewrite Ht. cbn [bind].
  rewrite Htext. reflexivity.
Qed.

Lemma In_matching_amounts {RT : Runtime} cond (items : list pyval) (exp : pyval) :
  In exp items -> cond (item_label exp) = true ->
  In (item_amount exp) (matching_amounts cond items).
Proof.
  intros Hin Hc. unfold matching_amounts. apply in_map. apply filter_In. now split.
Qed.

(** C1. On every item list the calculation can read, the summary the node
    stores holds, under each bucket's key, the sum of the coerced amounts of
    the items whose lowercased label passes that bucket's own keyword test,
    so an item that passes several tests is counted under several keys;
    under the total's key it holds the sum of these three stored sums,
    auditor plus legal/professional plus travel/administrative, and the
    error field is left as it was. *)
Theorem calculate_bucket_sums_and_total {RT : Runtime} (s : ExpenseState) :
  Forall (fun exp => readable exp = true) (expense_items s) ->
  let items := expense_items s in
  let a := py_sum (matching_amounts is_auditor items) in
  let l := py_sum (matching_amounts is_legal_prof items) in
  let t := py_sum (matching_amounts is_travel_admin items) in
  let calc := calculated_other_expenses (calculate_other_expenses_node s) in
  (exists partial total text,
     num_add a l = inr partial /\
     num_add partial t = inr total /\
     calculate_other_expenses_node s =
     set_calculated (summary a l t total text) s /\
     lookup "total_other_expenses" calc = Some (pyval_of_number total)) /\
  lookup "auditor_fees" calc = Some (pyval_of_number a) /\
  lookup "legal_and_professional_charges" calc = Some (pyval_of_number l) /\
  lookup "travel_and_administrative_expenses" calc = Some (pyval_of_number t) /\
  error (calculate_other_expenses_node s) = error s /\
  (forall exp key cond,
     In exp items -> In (key, cond) bucket_tests ->
     cond (item_label exp) = true ->
     In (item_amount exp) (matching_amounts cond items) /\
     lookup key calc =
       Some (pyval_of_number (py_sum (matching_amounts cond items)))).
Proof.
  intros Hr items a l t calc.
  destruct (calculate_readable s Hr) as [partial [total [text [Hp [Ht [_ [_ Hs]]]]]]].
  fold items a l t in Hp, Ht, Hs.
  assert (Hcalc : calc = summary a l t total text).
  { subst calc. now rewrite Hs. }
  split; [|split; [|split; [|split; [|split]]]].
  - exists partial, total, text. repeat split; auto.
    rewrite Hcalc. reflexivity.
  - rewrite Hcalc. reflexivity.
  - rewrite Hcalc. reflexivity.
  - rewrite Hcalc. reflexivity.
  - now rewrite Hs.
  - intros exp key cond Hin Hk Hc. split.
    + now apply In_matching_amounts.
    + rewrite Hcalc.
      destruct Hk as [H|[H|[H|[]]]]; injection H as <- <-; reflexivity.
Qed.

Lemma five_records_readable {RT : Runtime} :
  Forall (fun exp => readable exp = true) five_records.
Proof. repeat constructor. Qed.

Lemma string_app_assoc (a b c : string) : (a ++ b) ++ c = a ++ b ++ c.
Proof. induction a as [|x a IH]; simpl; congruence. Qed.

Lemma Substring_here (kw post : string) : Substring kw (kw ++ post).
Proof. now exists "", post. Qed.

Lemma Substring_skip (kw p s : string) : Substring kw s -> Substring kw (p ++ s).
Proof.
  intros [pre [post ->]]. exists (p ++ pre), post. now rewrite string_app_assoc.
Qed.

(** The template with its amounts and its closing statement set apart. *)
Lemma fallback_template_parts (a l t : string) :
  fallback_template a l t =
  ("Analysis Summary:" ++ nl ++ "- Total audit-related fees: ") ++
  ("$" ++ a) ++
  (nl ++ "- Legal and professional services: ") ++
  ("$" ++ l) ++
  (nl ++ "- Travel and administrative costs: ") ++
  ("$" ++ t) ++
  (nl ++ "- ") ++
  "No significant anomalies detected" ++ " in expense patterns".
Proof. reflexivity. Qed.

(** C6. When the chat model cannot be used, the analysis stored with the
    summary is the fixed template filled with the three bucket sums just
    computed, each formatted as a dollar amount with two decimals, and
    ending in the statement that no significant anomalies were detected;
    nothing else enters the text. *)
Theorem fallback_analysis_from_bucket_sums {RT : Runtime} (s : ExpenseState) :
  Forall (fun exp => readable exp = true) (expense_items s) ->
  llm_analysis (expense_items s) = None ->
  let items := expense_items s in
  let a := py_sum (matching_amounts is_auditor items) in
  let l := py_sum (matching_amounts is_legal_prof items) in
  let t := py_sum (matching_amounts is_travel_admin items) in
  let text :=
    fallback_template (format_number a) (format_number l) (format_number t) in
  let calc := calculated_other_expenses (calculate_other_expenses_node s) in
  lookup "ai_analysis" calc = Some (PStr text) /\
  lookup "auditor_fees" calc = Some (pyval_of_number a) /\
  lookup "legal_and_professional_charges" calc = Some (pyval_of_number l) /\
  lookup "travel_and_administrative_expenses" calc = Some (pyval_of_number t) /\
  Substring ("$" ++ format_number a) text /\
  Substring ("$" ++ format_number l) text /\
  Substring ("$" ++ format_number t) text /\
  Substring "No significant anomalies detected" text.
Proof.
  intros Hr Hllm items a l t text calc.
  destruct (calculate_readable s Hr) as [partial [total [txt [_ [_ [_ [Htxt Hs]]]]]]].
  fold items a l t in Htxt, Hs.
  unfold analysis_text in Htxt. fold items in Hllm. rewrite Hllm in Htxt.
  rewrite fallback_text_values in Htxt by apply py_sum_value.
  injection Htxt as <-. fold text in Hs. subst calc. rewrite Hs.
  repeat split; try reflexivity;
    unfold text; rewrite fallback_template_parts;
    repeat first [apply Substring_here | apply Substring_skip].
Qed.

(** ** The scenario of the five records *)

(** C7. On the five records Auditor Fees 5000, Legal Fees 3500, Travel
    Expenses 2200, Professional Services 1800 and Administrative 900, with
    the chat model out of reach, the graph keeps all five records and
    stores the floats 5000, 5300, 3100 and 13400 as auditor, legal and
    professional, travel and administrative and grand total; analysis and
    report show them as 5000.00, 5300.00, 3100.00 and 13400.00, and no
    error is recorded. *)
Theorem five_record_scenario {RT : Runtime} :
  llm_analysis five_records = None ->
  let final := run_graph (initial_state (raw_of five_records)) in
  let analysis := fallback_template "5000.00" "5300.00" "3100.00" in
  expense_items final = five_records /\
  calculated_other_expenses final =
    [ ("auditor_fees", PFloat (float_of_Z 5000));
      ("legal_and_professional_charges", PFloat (float_of_Z 5300));
      ("travel_and_administrative_expenses", PFloat (float_of_Z 3100));
      ("total_other_expenses", PFloat (float_of_Z 13400));
      ("ai_analysis", PStr analysis) ] /\
  float_of_Z 5000 = S754_finite false 5497558138880000 (-40) /\
  float_of_Z 5300 = S754_finite false 5827411627212800 (-40) /\
  float_of_Z 3100 = S754_finite false 6816972092211200 (-41) /\
  float_of_Z 13400 = S754_finite false 7366727906099200 (-39) /\
  output final =
    report_text "5000.00" "5300.00" "3100.00" "13400.00" analysis "5" /\
  error final = None.
Proof.
  intros Hllm final analysis.
  assert (Hx : extract_other_expenses_node (initial_state (raw_of five_records)) =
               mkState (raw_of five_records) five_records [] "" None)
    by reflexivity.
  assert (Hc : calculate_other_expenses_node
                 (mkState (raw_of five_records) five_records [] "" None) =
               mkState (raw_of five_records) five_records
                 (summary (NFloat (float_of_Z 5000)) (NFloat (float_of_Z 5300))
                          (NFloat (float_of_Z 3100)) (NFloat (float_of_Z 13400))
                          analysis) "" None).
  { unfold calculate_other_expenses_node, calculate_body, analysis_text.
    cbn [expense_items]. rewrite Hllm. reflexivity. }
  subst final. unfold run_graph. rewrite Hx, Hc.
  repeat split; reflexivity.
Qed.

(** ** Signs of float sums *)

Lemma iter_pos_invariant {A} (P : A -> Prop) (f : A -> A) :
  (forall x, P x -> P (f x)) ->
  forall n x, P x -> P (iter_pos f n x).
Proof. intros Hf. induction n; intros x Hx; simpl; auto. Qed.

Lemma shr_1_nonneg (mrs : shr_record) :
  (0 <= shr_m mrs)%Z -> (0 <= shr_m (shr_1 mrs))%Z.
Proof.
  destruct mrs as [m r s]. destruct m as [|p|p]; simpl; try lia.
  destruct p; simpl; lia.
Qed.

Lemma shr_nonneg (mrs : shr_record) (e n : Z) :
  (0 <= shr_m mrs)%Z -> (0 <= shr_m (fst (shr mrs e n)))%Z.
Proof.
  intros H. destruct n; simpl; auto.
  apply iter_pos_invariant; auto using shr_1_nonneg.
Qed.

Lemma shr_fexp_nonneg (m e : Z) (l : location) :
  (0 <= m)%Z -> (0 <= shr_m (fst (shr_fexp prec emax m e l)))%Z.
Proof.
  intros H. unfold shr_fexp. apply shr_nonneg.
  destruct l as [|[]]; simpl; auto.
Qed.

Lemma round_nearest_even_nonneg (m : Z) (l : location) :
  (0 <= m)%Z -> (0 <= round_nearest_even m l)%Z.
Proof.
  intros H. destruct l as [|[]]; simpl; try lia.
  destruct (Z.even m); lia.
Qed.

Lemma binary_round_aux_nonneg (m e : Z) (l : location) :
  (0 <= m)%Z ->
  float_nonneg (binary_round_aux prec emax false m e l) = true.
Proof.
  intros H. unfold binary_round_aux.
  pose proof (shr_fexp_nonneg m e l H) as H1.
  destruct (shr_fexp prec emax m e l) as [mrs' e']. cbn [fst] in H1.
  pose proof (shr_fexp_nonneg _ e' loc_Exact
                (round_nearest_even_nonneg _ (loc_of_shr_record mrs') H1)) as H2.
  destruct (shr_fexp prec emax _ e' loc_Exact) as [mrs'' e'']. cbn [fst] in H2.
  destruct (shr_m mrs'') as [|p|p].
  - reflexivity.
  - now destruct (e'' <=? emax - prec)%Z.
  - lia.
Qed.

(** Adding two non-negative floats gives a non-negative float. *)
Lemma float_add_nonneg (x y : float) :
  float_nonneg x = true -> float_nonneg y = true ->
  float_nonneg (float_add x y) = true.
Proof.
  destruct x as [sx|sx| |sx mx ex], y as [sy|sy| |sy my ey];
    try discriminate;
    try (destruct sx; try discriminate);
    try (destruct sy; try discriminate);
    try reflexivity.
  intros _ _. unfold float_add, SFadd, binary_normalize, cond_Zopp.
  cbn [Z.add]. unfold binary_round.
  destruct (shl_align _ _ _) as [mz ez].
  apply binary_round_aux_nonneg. lia.
Qed.

Lemma fold_float_add_nonneg (xs : list float) (a : float) :
  float_nonneg a = true ->
  Forall (fun x => float_nonneg x = true) xs ->
  float_nonneg (fold_left float_add xs a) = true.
Proof.
  intros Ha H. revert a Ha. induction H as [|x xs Hx _ IH]; intros a Ha.
  - exact Ha.
  - cbn [fold_left]. apply IH. now apply float_add_nonneg.
Qed.

Lemma py_sum_nonneg (xs : list float) :
  Forall (fun x => float_nonneg x = true) xs ->
  number_nonneg (py_sum xs) = true.
Proof.
  intros H. destruct H as [|x xs Hx Hxs]; [reflexivity|].
  cbn [py_sum number_nonneg]. apply fold_float_add_nonneg; auto.
  now apply float_add_nonneg.
Qed.

Lemma value_nonneg_number (n : number) :
  value_nonneg (pyval_of_number n) = number_nonneg n.
Proof. now destruct n. Qed.

(** C8, as the code has it. On every item list the calculation can read,
    each bucket total is the sum of the matching amounts as they are, with
    no clamping: it is the integer 0 when no item matches the bucket, and
    it is non-negative whenever every matching amount is. *)
Theorem bucket_totals_without_clamping {RT : Runtime} (s : ExpenseState) :
  Forall (fun exp => readable exp = true) (expense_items s) ->
  let items := expense_items s in
  let calc := calculated_other_expenses (calculate_other_expenses_node s) in
  forall key cond, In (key, cond) bucket_tests ->
    lookup key calc =
      Some (pyval_of_number (py_sum (matching_amounts cond items))) /\
    (matching_amounts cond items = [] -> lookup key calc = Some (PInt 0)) /\
    (Forall (fun x => float_nonneg x = true) (matching_amounts cond items) ->
     exists v, lookup key calc = Some v /\ value_nonneg v = true).
Proof.
  intros Hr items calc key cond Hin.
  destruct (calculate_readable s Hr) as [partial [total [text [_ [_ [_ [_ Hs]]]]]]].
  fold items in Hs.
  assert (Hk : lookup key calc =
               Some (pyval_of_number (py_sum (matching_amounts cond items)))).
  { subst calc. rewrite Hs.
    destruct Hin as [H|[H|[H|[]]]]; injection H as <- <-; reflexivity. }
  repeat split.
  - exact Hk.
  - intros Hnone. rewrite Hk, Hnone. reflexivity.
  - intros Hpos. eexists. split; [exact Hk|].
    rewrite value_nonneg_number. now apply py_sum_nonneg.
Qed.

(** ** What a run of the graph stores as summary *)

Lemma sum_where_value {RT : Runtime} cond (items : list pyval) :
  forall acc r,
    sum_value acc = true ->
    sum_where cond items acc = inr r ->
    sum_value r = true.
Proof.
  induction items as [|exp items IH]; intros acc r Hacc; cbn [sum_where].
  - intros H. injection H as <-. exact Hacc.
  - destruct (category_label exp) as [e|label]; cbn [bind]; [discriminate|].
    destruct (cond label); [|now apply IH].
    destruct (amount_of exp) as [e|x]; cbn [bind]; [discriminate|].
    destruct (num_add acc (NFloat x)) as [e|acc'] eqn:Hadd; cbn [bind];
      [discriminate|].
    apply IH. destruct acc as [z|y]; cbn [num_add] in Hadd.
    + destruct (int_to_float z); cbn [bind ret] in Hadd; [discriminate|].
      now injection Hadd as <-.
    + now injection Hadd as <-.
Qed.

Lemma num_add_value (a b c : number) :
  sum_value a = true -> sum_value b = true ->
  num_add a b = inr c -> sum_value c = true.
Proof.
  intros Ha Hb H. destruct (num_add_values a b Ha Hb) as [c' [H' Hc]].
  congruence.
Qed.



Lemma generate_calculated {RT : Runtime} (s : ExpenseState) :
  calculated_other_expenses (generate_output_node s) =
  if dict_truthy (calculated_other_expenses s)
  then calculated_other_expenses s else zero_summary.
Proof.
  unfold generate_output_node.
  destruct (dict_truthy (calculated_other_expenses s));
    destruct (render _ _); reflexivity.
Qed.


Lemma render_summary {RT : Runtime} (a l t total : number) (text : string)
    (items : list pyval) :
  sum_value a = true -> sum_value l = true ->
  sum_value t = true -> sum_value total = true ->
  render (summary a l t total text) items =
  inr (report_text (format_number a) (format_number l) (format_number t)
         (format_number total) text (string_of_nat (List.length items))).
Proof.
  intros Ha Hl Ht Htot. unfold render, summary, dict_get. cbn [lookup String.eqb].
  cbn. now rewrite !format_2f_value.
Qed.


Lemma generate_expense_items {RT : Runtime} (s : ExpenseState) :
  expense_items (generate_output_node s) = expense_items s.
Proof.
  unfold generate_output_node.
  destruct (dict_truthy (calculated_other_expenses s));
    destruct (render _ _); reflexivity.
Qed.


(** ** The error field *)

Lemma map_result_error {RT : Runtime} (body : ExpenseState -> result ExpenseState)
    (prefix : string) (s : ExpenseState) :
  (forall s', body s = inr s' -> error s' = error s) ->
  let s1 := match body s with
            | inr s' => s'
            | inl e => set_error (Some (prefix ++ exn_str e)) s
            end in
  error s1 = error s \/ exists msg, error s1 = Some msg.
Proof.
  intros H. destruct (body s) as [e|s']; cbn.
  - right. eauto.
  - left. now apply H.
Qed.

Lemma extract_body_error {RT : Runtime} (s s' : ExpenseState) :
  extract_body s = inr s' -> error s' = error s.
Proof.
  unfold extract_body.
  destruct (py_get _ _ _) as [e|x]; cbn [bind]; [discriminate|].
  destruct (py_iter x) as [e|exps]; cbn [bind]; [discriminate|].
  destruct (filter_m _ _) as [e|keep]; cbn [bind ret]; [discriminate|].
  intros H. now injection H as <-.
Qed.

Lemma calculate_body_error {RT : Runtime} (s s' : ExpenseState) :
  calculate_body s = inr s' -> error s' = error s.
Proof.
  unfold calculate_body.
  repeat (match goal with
          | |- context [bind ?c _] => destruct c; cbn [bind ret]; [discriminate|]
          end).
  intros H. now injection H as <-.
Qed.

(** A node keeps the error field or sets it to a message. *)
Lemma node_error_cases {RT : Runtime} (node : ExpenseState -> ExpenseState)
    (s : ExpenseState) :
  In node nodes ->
  error (node s) = error s \/ exists msg, error (node s) = Some msg.
Proof.
  intros [<-|[<-|[<-|[]]]].
  - apply (map_result_error extract_body "Extraction error: ").
    apply extract_body_error.
  - apply (map_result_error calculate_body "Calculation error: ").
    apply calculate_body_error.
  - unfold generate_output_node.
    destruct (dict_truthy _); destruct (render _ _); cbn; eauto.
Qed.

Lemma node_keeps_error {RT : Runtime} (node : ExpenseState -> ExpenseState)
    (s : ExpenseState) :
  In node nodes -> error s <> None -> error (node s) <> None.
Proof.
  intros Hin Hs. destruct (node_error_cases node s Hin) as [->|[msg ->]].
  - exact Hs.
  - discriminate.
Qed.

(** C9. The error field only gains messages: each node leaves it as it
    found it or sets it to a message, never back to [None]; so an error
    present before the graph starts, or recorded by the extraction or by
    the calculation, is still recorded when the graph ends. *)
Theorem error_field_monotone {RT : Runtime} (s : ExpenseState) :
  (forall node, In node nodes ->
     (error (node s) = error s \/ exists msg, error (node s) = Some msg) /\
     (error s <> None -> error (node s) <> None)) /\
  (let s1 := extract_other_expenses_node s in
   let s2 := calculate_other_expenses_node s1 in
   error s <> None \/ error s1 <> None \/ error s2 <> None ->
   error (run_graph s) <> None).
Proof.
  split.
  - intros node Hin. split.
    + now apply node_error_cases.
    + now apply node_keeps_error.
  - intros s1 s2 H. unfold run_graph. fold s1. fold s2.
    assert (H2 : error s2 <> None).
    { destruct H as [H|[H|H]]; auto.
      - subst s2 s1. apply node_keeps_error; [cbn; auto|].
        apply node_keeps_error; [cbn; auto|]. exact H.
      - subst s2. apply node_keeps_error; [cbn; auto|]. exact H. }
    apply node_keeps_error; [cbn; auto|]. exact H2.
Qed.

(** ** No node reads the error field *)

Lemma extract_body_set_error {RT : Runtime} (e : option string) (s : ExpenseState) :
  extract_body (set_error e s) =
  match extract_body s with
  | inl x => inl x
  | inr s' => inr (set_error e s')
  end.
Proof.
  unfold extract_body. cbn [raw_data set_error].
  destruct (py_get _ _ _) as [x|v]; cbn [bind]; [reflexivity|].
  destruct (py_iter v) as [x|exps]; cbn [bind]; [reflexivity|].
  destruct (filter_m _ _) as [x|keep]; reflexivity.
Qed.

Lemma calculate_body_set_error {RT : Runtime} (e : option string) (s : ExpenseState) :
  calculate_body (set_error e s) =
  match calculate_body s with
  | inl x => inl x
  | inr s' => inr (set_error e s')
  end.
Proof.
  unfold calculate_body. cbn [expense_items set_error].
  repeat (match goal with
          | |- context [bind ?c _] => destruct c; cbn [bind ret]; [reflexivity|]
          end).
  reflexivity.
Qed.

(** C3, as the code has it. No node looks at the error field. With an
    error already recorded, the extraction, the calculation and the output
    node each do the work they do without it and return the same state,
    with the error field still set: to the earlier message, or to the
    node's own message when the node itself fails. *)
Theorem nodes_do_not_short_circuit {RT : Runtime}
    (s : ExpenseState) (msg : string) :
  forall node, In node nodes ->
    exists msg',
      node (set_error (Some msg) s) = set_error (Some msg') (node s) /\
      (msg' = msg \/ error (node s) = Some msg').
Proof.
  intros node [<-|[<-|[<-|[]]]].
  - unfold extract_other_expenses_node. rewrite extract_body_set_error.
    destruct (extract_body s) as [x|s'].
    + eexists. split; [reflexivity|]. now right.
    + exists msg. split; [reflexivity|]. now left.
  - unfold calculate_other_expenses_node. rewrite calculate_body_set_error.
    destruct (calculate_body s) as [x|s'].
    + eexists. split; [reflexivity|]. now right.
    + exists msg. split; [reflexivity|]. now left.
  - unfold generate_output_node.
    cbn [calculated_other_expenses expense_items set_error].
    destruct (dict_truthy (calculated_other_expenses s));
      cbn [calculated_other_expenses expense_items set_calculated set_error];
      destruct (render _ _) as [x|out].
    + eexists. split; [reflexivity|]. now right.
    + exists msg. split; [reflexivity|]. now left.
    + eexists. split; [reflexivity|]. now right.
    + exists msg. split; [reflexivity|]. now left.
Qed.

(** ** Runs on concrete data *)

(** One item whose label passes two bucket tests is counted in both sums
    and twice in the grand total. *)
Example overlapping_label_counted_twice :
  calculated_other_expenses
    (calculate_other_expenses_node (RT := offline_runtime)
       (extracted [expense "Legal and Travel Expenses" (PInt 100)])) =
  summary (NInt 0) (NFloat (float_of_Z 100)) (NFloat (float_of_Z 100))
          (NFloat (float_of_Z 200))
          (fallback_template "0.00" "100.00" "100.00").
Proof. reflexivity. Qed.

(** No record at all: every sum is the integer 0 and nothing fails. *)
Example empty_input_run :
  run_graph (RT := offline_runtime) (initial_state (raw_of [])) =
  mkState (raw_of []) []
    (summary (NInt 0) (NInt 0) (NInt 0) (NInt 0)
       (fallback_template "0.00" "0.00" "0.00"))
    (report_text "0.00" "0.00" "0.00" "0.00"
       (fallback_template "0.00" "0.00" "0.00") "0")
    None.
Proof. reflexivity. Qed.

(** An API reply that is no dict fails the extraction, and the later nodes
    still run. *)
Example malformed_reply_run :
  let final := run_graph (RT := offline_runtime) (initial_state (PList [])) in
  error final = Some "Extraction error: object has no attribute 'get'" /\
  output final =
    report_text "0.00" "0.00" "0.00" "0.00"
      (fallback_template "0.00" "0.00" "0.00") "0".
Proof. split; reflexivity. Qed.

Lemma extract_returns_relevant_records_witness :
  let s := initial_state (raw_of (map PDict sample_records)) in
  let s' := extract_other_expenses_node (RT := offline_runtime) s in
  expense_items s' =
    [ PDict [("category", PStr "Auditor Fees"); ("amount", PInt 5000)];
      PDict [("category", PStr "LEGAL retainer"); ("amount", PInt 3500)] ] /\
  error s' = None.
Proof.
  intros s s'.
  destruct (extract_returns_relevant_records (RT := offline_runtime) s
              [("expenses", PList (map PDict sample_records))] sample_records
              eq_refl eq_refl) as [Hitems [_ [_ [_ [Herr _]]]]].
  split; [exact Hitems | exact Herr].
Defined.

Lemma bad_amount_fails_aggregation_witness :
  let exp := expense "Auditor Fees" (PStr "abc") in
  let s := extract_other_expenses_node (RT := offline_runtime)
             (initial_state (raw_of [exp])) in
  let s2 := generate_output_node (RT := offline_runtime)
              (calculate_other_expenses_node (RT := offline_runtime) s) in
  raises (py_float (RT := offline_runtime) (PStr "abc")) = true /\
  calculated_other_expenses s2 = zero_summary /\
  output s2 = zero_report 1 /\
  error s2 <> None.
Proof.
  intros exp s s2.
  assert (HF : Filtered (RT := offline_runtime) (expense_items s)).
  { constructor; [reflexivity | constructor]. }
  destruct (bad_amount_fails_aggregation (RT := offline_runtime) s exp (PStr "abc")
              HF (or_introl eq_refl) eq_refl eq_refl eq_refl)
    as [_ [_ [H2 [Hz [_ Herr]]]]].
  split; [reflexivity|]. split; [exact Hz|]. split; [|exact Herr].
  fold s2 in H2. rewrite H2. reflexivity.
Defined.

Lemma missing_amount_fails_aggregation_witness :
  let s := extract_other_expenses_node (RT := offline_runtime)
             (initial_state (raw_of [PDict [("category", PStr "Travel")]])) in
  lookup "amount" [("category", PStr "Travel")] = None /\
  error (calculate_other_expenses_node (RT := offline_runtime) s) <> None /\
  calculated_other_expenses (calculate_other_expenses_node (RT := offline_runtime) s) = [].
Proof.
  intros s.
  assert (HF : Filtered (RT := offline_runtime) (expense_items s)).
  { constructor; [reflexivity | constructor]. }
  destruct (missing_amount_fails_aggregation (RT := offline_runtime) s
              [("category", PStr "Travel")] HF (or_introl eq_refl) eq_refl)
    as [_ [_ [Herr [Hcalc _]]]].
  split; [reflexivity|]. split; [exact Herr | exact Hcalc].
Defined.

Lemma calculate_bucket_sums_and_total_witness :
  let calc :=
    calculated_other_expenses
      (calculate_other_expenses_node (RT := offline_runtime)
         (extracted five_records)) in
  lookup "auditor_fees" calc = Some (PFloat (float_of_Z 5000)) /\
  lookup "legal_and_professional_charges" calc = Some (PFloat (float_of_Z 5300)) /\
  lookup "travel_and_administrative_expenses" calc =
    Some (PFloat (float_of_Z 3100)) /\
  exists partial total,
    num_add (NFloat (float_of_Z 5000)) (NFloat (float_of_Z 5300)) = inr partial /\
    num_add partial (NFloat (float_of_Z 3100)) = inr total /\
    lookup "total_other_expenses" calc = Some (pyval_of_number total).
Proof.
  intros calc.
  destruct (calculate_bucket_sums_and_total (RT := offline_runtime)
              (extracted five_records)
              (five_records_readable (RT := offline_runtime)))
    as [[partial [total [text [Hp [Ht [_ Htot]]]]]] [Ha [Hl [Htr _]]]].
  split; [exact Ha|]. split; [exact Hl|]. split; [exact Htr|].
  exists partial, total. split; [exact Hp|]. split; [exact Ht | exact Htot].
Defined.

Lemma fallback_analysis_from_bucket_sums_witness :
  lookup "ai_analysis"
    (calculated_other_expenses
       (calculate_other_expenses_node (RT := offline_runtime)
          (extracted five_records))) =
  Some (PStr (fallback_template "5000.00" "5300.00" "3100.00")).
Proof.
  exact (proj1 (fallback_analysis_from_bucket_sums (RT := offline_runtime)
                  (extracted five_records)
                  (five_records_readable (RT := offline_runtime)) eq_refl)).
Defined.

Lemma five_record_scenario_witness :
  output (run_graph (RT := offline_runtime) (initial_state (raw_of five_records))) =
  report_text "5000.00" "5300.00" "3100.00" "13400.00"
    (fallback_template "5000.00" "5300.00" "3100.00") "5".
Proof.
  destruct (five_record_scenario (RT := offline_runtime) eq_refl)
    as [_ [_ [_ [_ [_ [_ [Hout _]]]]]]].
  exact Hout.
Defined.

(** C8 as stated fails: one auditor record with the amount -5 gives the
    auditor total -5.0. *)
Lemma negative_amount_negative_total :
  let items := [expense "Auditor Fees" (PInt (-5))] in
  let s := calculate_other_expenses_node (RT := offline_runtime)
             (extract_other_expenses_node (RT := offline_runtime)
                (initial_state (raw_of items))) in
  expense_items s = items /\
  error s = None /\
  lookup "auditor_fees" (calculated_other_expenses s) =
    Some (PFloat (S754_finite true 5629499534213120 (-50))) /\
  float_neg (S754_finite true 5629499534213120 (-50)) = true /\
  format_float_2f (S754_finite true 5629499534213120 (-50)) = "-5.00" /\
  ~ bucket_totals_nonneg (calculated_other_expenses s).
Proof.
  intros items s. repeat split.
  intros H. destruct (H "auditor_fees" is_auditor (or_introl eq_refl)) as [v [Hv Hn]].
  vm_compute in Hv. injection Hv as <-. discriminate Hn.
Qed.

Lemma bucket_totals_without_clamping_witness :
  lookup "auditor_fees"
    (calculated_other_expenses
       (calculate_other_expenses_node (RT := offline_runtime)
          (extracted five_records))) =
  Some (PFloat (float_of_Z 5000)) /\
  (exists v,
     lookup "travel_and_administrative_expenses"
       (calculated_other_expenses
          (calculate_other_expenses_node (RT := offline_runtime)
             (extracted five_records))) = Some v /\
     value_nonneg v = true).
Proof.
  split.
  - exact (proj1 (bucket_totals_without_clamping (RT := offline_runtime)
                    (extracted five_records)
                    (five_records_readable (RT := offline_runtime))
                    "auditor_fees" is_auditor (or_introl eq_refl))).
  - refine (proj2 (proj2 (bucket_totals_without_clamping (RT := offline_runtime)
                    (extracted five_records)
                    (five_records_readable (RT := offline_runtime))
                    "travel_and_administrative_expenses" is_travel_admin
                    (or_intror (or_intror (or_introl eq_refl))))) _).
    repeat constructor.
Defined.


Lemma error_field_monotone_witness :
  let s := initial_state (raw_of [expense "Auditor Fees" (PStr "abc")]) in
  error (calculate_other_expenses_node (RT := offline_runtime)
           (extract_other_expenses_node (RT := offline_runtime) s)) <> None /\
  error (run_graph (RT := offline_runtime) s) <> None.
Proof.
  intros s.
  assert (H : error (calculate_other_expenses_node (RT := offline_runtime)
                (extract_other_expenses_node (RT := offline_runtime) s)) <> None)
    by discriminate.
  split; [exact H|].
  exact (proj2 (error_field_monotone (RT := offline_runtime) s)
           (or_intror (or_intror H))).
Defined.

(** C3 as stated fails: with an error already recorded the extraction still
    stores the matching records and the calculation still stores a
    summary. *)
Lemma nodes_run_despite_error :
  let s := set_error (Some "Earlier error") (initial_state (raw_of five_records)) in
  let s1 := extract_other_expenses_node (RT := offline_runtime) s in
  let s2 := calculate_other_expenses_node (RT := offline_runtime) s1 in
  error s = Some "Earlier error" /\
  expense_items s = [] /\
  expense_items s1 = five_records /\
  s1 <> s /\
  calculated_other_expenses s1 = [] /\
  lookup "total_other_expenses" (calculated_other_expenses s2) =
    Some (PFloat (float_of_Z 13400)) /\
  s2 <> s1.
Proof.
  intros s s1 s2. repeat split; try discriminate.
Qed.

Lemma nodes_do_not_short_circuit_witness :
  let s := initial_state (raw_of five_records) in
  exists msg',
    extract_other_expenses_node (RT := offline_runtime)
      (set_error (Some "Earlier error") s) =
    set_error (Some msg')
      (extract_other_expenses_node (RT := offline_runtime) s) /\
    (msg' = "Earlier error" \/
     error (extract_other_expenses_node (RT := offline_runtime) s) = Some msg').
Proof.
  intros s.
  exact (nodes_do_not_short_circuit (RT := offline_runtime) s "Earlier error"
           extract_other_expenses_node (or_introl eq_refl)).
Defined.

(** ** Beyond the claims: when the extraction succeeds *)

Lemma is_relevant_not_record {RT : Runtime} (x : pyval) :
  is_record x = false -> raises (is_relevant x) = true.
Proof. destruct x; try discriminate; reflexivity. Qed.

Lemma filter_m_all_records {RT : Runtime} (l : list pyval) :
  forallb is_record l = true ->
  exists keep, filter_m is_relevant l = inr keep.
Proof.
  induction l as [|x l IH]; cbn [forallb filter_m]; intros H.
  - now exists [].
  - apply andb_true_iff in H as [Hx Hl]. destruct (IH Hl) as [keep Hk].
    destruct x; try discriminate. rewrite is_relevant_record, Hk.
    cbn [bind ret]. eauto.
Qed.

Lemma filter_m_some_not_record {RT : Runtime} (l : list pyval) :
  forallb is_record l = false ->
  raises (filter_m is_relevant l) = true.
Proof.
  induction l as [|x l IH]; cbn [forallb filter_m]; intros H; [discriminate|].
  apply andb_false_iff in H as [Hx|Hl].
  - apply raises_bind_l. now apply is_relevant_not_record.
  - apply raises_bind_r. intros b. apply raises_bind_l. now apply IH.
Qed.

Lemma extract_body_well_shaped {RT : Runtime} (s : ExpenseState) :
  raises (extract_body s) = negb (well_shaped (raw_data s)).
Proof.
  unfold extract_body, well_shaped.
  destruct (raw_data s) as [| | | | | |d]; try reflexivity.
  cbn [py_get bind ret]. fold (dict_get d "expenses" (PList [])).
  destruct (dict_get d "expenses" (PList [])) as [| | | |str|l|kvs];
    try reflexivity.
  - destruct str; reflexivity.
  - cbn [py_iter bind ret well_shaped_expenses].
    destruct (forallb is_record l) eqn:Hl.
    + destruct (filter_m_all_records l Hl) as [keep ->]. reflexivity.
    + apply raises_bind_l. now apply filter_m_some_not_record.
  - destruct kvs; reflexivity.
Qed.

(** X1. The extraction succeeds exactly on a reply that is a dict whose
    ["expenses"] is absent, a list of records, or an empty dict or string:
    then it stores a filtered list and leaves the rest of the state alone.
    On any other reply (no dict, a number or null for the expenses, one
    item that is no record) it stores nothing and only records an
    extraction error. *)
Theorem extraction_outcome {RT : Runtime} (s : ExpenseState) :
  if well_shaped (raw_data s)
  then exists items,
         extract_other_expenses_node s = set_expense_items items s /\
         Filtered items
  else exists e,
         extract_other_expenses_node s =
         set_error (Some ("Extraction error: " ++ exn_str e)) s.
Proof.
  pose proof (extract_body_well_shaped s) as H.
  unfold extract_other_expenses_node.
  destruct (well_shaped (raw_data s)); cbn [negb] in H.
  - destruct (extract_body s) as [e|s'] eqn:Hb; [discriminate|].
    unfold extract_body in Hb.
    destruct (py_get _ _ _) as [e|v]; cbn [bind] in Hb; [discriminate|].
    destruct (py_iter v) as [e|exps]; cbn [bind] in Hb; [discriminate|].
    destruct (filter_m is_relevant exps) as [e|keep] eqn:Hf;
      cbn [bind ret] in Hb; [discriminate|].
    injection Hb as <-. exists keep. split; [reflexivity|].
    now apply filter_m_Forall in Hf.
  - destruct (extract_body s) as [e|s']; [|discriminate]. now exists e.
Qed.

(** ** Beyond the claims: letter case and the two keyword lists *)

Lemma lower_app (a b : string) : lower (a ++ b) = lower a ++ lower b.
Proof. induction a as [|c a IH]; simpl; congruence. Qed.

(** X2. A record whose category text holds one of the five keywords in
    any mix of upper and lower case, anywhere in the text, is kept by the
    extraction's test. *)
Theorem keyword_in_any_case {RT : Runtime}
    (r : dict) (pre word post : string) :
  lookup "category" r = Some (PStr (pre ++ word ++ post)) ->
  In (lower word) key_categories ->
  is_relevant (PDict r) = inr true.
Proof.
  intros Hcat Hkw. rewrite is_relevant_record. f_equal.
  apply relevantb_iff. exists (lower word). split; [exact Hkw|].
  unfold label_of, dict_get. rewrite Hcat. cbn [py_str].
  rewrite !lower_app. now exists (lower pre), (lower post).
Qed.

Lemma item_label_inr {RT : Runtime} (exp : pyval) (label : string) :
  category_label exp = inr label -> item_label exp = label.
Proof. unfold item_label. now intros ->. Qed.

(** X3. The keyword list of the extraction and the keyword lists of the
    three sums agree: an item passes the extraction's test if and only if
    its label passes the test of at least one bucket, so no stored item is
    left out of every sum and no dropped record would have been counted. *)
Theorem kept_iff_some_bucket {RT : Runtime} (exp : pyval) (b : bool) :
  is_relevant exp = inr b ->
  (b = true <->
   exists key cond, In (key, cond) bucket_tests /\ cond (item_label exp) = true).
Proof.
  unfold is_relevant. destruct (category_label exp) as [e|label] eqn:Hl;
    unfold bind, ret; [discriminate|].
  intros H. rewrite (item_label_inr exp label Hl).
  assert (Hb : b = any_keyword key_categories label) by congruence.
  clear H. rewrite Hb, key_categories_buckets, !orb_true_iff. split.
  - intros [[H|H]|H].
    + exists "auditor_fees", is_auditor. split; [cbn; auto | exact H].
    + exists "legal_and_professional_charges", is_legal_prof.
      split; [cbn; auto | exact H].
    + exists "travel_and_administrative_expenses", is_travel_admin.
      split; [cbn; auto | exact H].
  - intros [key [cond [[Hin|[Hin|[Hin|[]]]] Hc]]]; injection Hin as _ <-; auto.
Qed.

(** ** Beyond the claims: when the calculation succeeds *)

Lemma num_add_float_value (acc : number) (x : float) :
  sum_value acc = true ->
  exists y, num_add acc (NFloat x) = inr (NFloat y).
Proof.
  destruct acc as [[| |]|a]; try discriminate; intros _.
  - now exists (float_add (S754_zero false) x).
  - now exists (float_add a x).
Qed.

Lemma sum_where_summable {RT : Runtime} cond (items : list pyval) :
  forallb (summable cond) items = true ->
  forall acc, sum_value acc = true ->
  exists r, sum_where cond items acc = inr r.
Proof.
  induction items as [|exp items IH]; cbn [forallb sum_where]; intros H acc Hacc.
  - now exists acc.
  - apply andb_true_iff in H as [Hexp Hitems]. unfold summable in Hexp.
    destruct (category_label exp) as [e|label]; [discriminate|]. cbn [bind].
    destruct (cond label); [|now apply IH].
    destruct (amount_of exp) as [e|x]; [discriminate|]. cbn [bind].
    destruct (num_add_float_value acc x Hacc) as [y ->]. cbn [bind].
    now apply IH.
Qed.

Lemma sum_where_not_summable {RT : Runtime} cond (items : list pyval) :
  forallb (summable cond) items = false ->
  forall acc, raises (sum_where cond items acc) = true.
Proof.
  induction items as [|exp items IH]; cbn [forallb sum_where]; intros H acc;
    [discriminate|].
  apply andb_false_iff in H as [Hexp|Hitems].
  - unfold summable in Hexp.
    destruct (category_label exp) as [e|label]; [reflexivity|]. cbn [bind].
    destruct (cond label); [|discriminate].
    apply raises_bind_l. now destruct (amount_of exp).
  - apply raises_bind_r. intros label. destruct (cond label); [|now apply IH].
    apply raises_bind_r. intros x. apply raises_bind_r. intros acc'. now apply IH.
Qed.

Lemma forallb_computable {RT : Runtime} (items : list pyval) :
  forallb computable items =
  forallb (summable is_auditor) items &&
  forallb (summable is_legal_prof) items &&
  forallb (summable is_travel_admin) items.
Proof.
  induction items as [|exp items IH]; [reflexivity|].
  cbn [forallb]. rewrite IH. unfold computable.
  destruct (summable is_auditor exp), (summable is_legal_prof exp),
    (summable is_travel_admin exp), (forallb (summable is_auditor) items),
    (forallb (summable is_legal_prof) items); reflexivity.
Qed.

Lemma summable_inv {RT : Runtime} cond (exp : pyval) :
  summable cond exp = true ->
  category_label exp = inr (item_label exp) /\
  (cond (item_label exp) = true -> amount_of exp = inr (item_amount exp)).
Proof.
  unfold summable, item_label, item_amount.
  destruct (category_label exp) as [e|label]; [discriminate|]. intros H.
  split; [reflexivity|]. intros Hc. rewrite Hc in H.
  now destruct (amount_of exp).
Qed.

Lemma sum_where_float_summable {RT : Runtime} cond (items : list pyval) :
  forallb (summable cond) items = true ->
  forall a,
    sum_where cond items (NFloat a) =
    inr (NFloat (fold_left float_add (matching_amounts cond items) a)).
Proof.
  induction items as [|exp items IH]; cbn [forallb]; intros H a.
  - reflexivity.
  - apply andb_true_iff in H as [Hexp Hitems].
    destruct (summable_inv cond exp Hexp) as [Hl Ha].
    cbn [sum_where]. rewrite Hl. cbn [bind]. rewrite matching_amounts_cons.
    destruct (cond (item_label exp)); [|now apply IH].
    rewrite (Ha eq_refl). cbn [bind num_add ret]. now rewrite IH.
Qed.

(** The loop of one sum is the sum of the matching amounts as soon as the
    sum gets past every item. *)
Lemma bucket_sum_summable {RT : Runtime} cond (items : list pyval) :
  forallb (summable cond) items = true ->
  bucket_sum cond items = inr (py_sum (matching_amounts cond items)).
Proof.
  unfold bucket_sum. induction items as [|exp items IH]; cbn [forallb]; intros H.
  - reflexivity.
  - apply andb_true_iff in H as [Hexp Hitems].
    destruct (summable_inv cond exp Hexp) as [Hl Ha].
    cbn [sum_where]. rewrite Hl. cbn [bind]. rewrite matching_amounts_cons.
    destruct (cond (item_label exp)); [|now apply IH].
    rewrite (Ha eq_refl). cbn [bind].
    change (num_add (NInt 0) (NFloat (item_amount exp)))
      with (@inr exn _ (NFloat (float_add (S754_zero false) (item_amount exp)))).
    cbn [bind]. now rewrite sum_where_float_summable.
Qed.

(** X4. The calculation succeeds exactly when every item is a record and
    every item that passes a bucket's test has an amount [float] accepts;
    the amount of an item that passes no test is never read. It then
    stores, for each bucket, the sum of the matching amounts, and their
    total, and leaves the error field alone; otherwise it stores nothing
    and only records a calculation error. *)
Theorem calculation_outcome {RT : Runtime} (s : ExpenseState) :
  let items := expense_items s in
  let a := py_sum (matching_amounts is_auditor items) in
  let l := py_sum (matching_amounts is_legal_prof items) in
  let t := py_sum (matching_amounts is_travel_admin items) in
  if forallb computable items
  then exists partial total text,
         num_add a l = inr partial /\
         num_add partial t = inr total /\
         analysis_text items a l t = inr text /\
         calculate_other_expenses_node s =
         set_calculated (summary a l t total text) s
  else exists e,
         calculate_other_expenses_node s =
         set_error (Some ("Calculation error: " ++ exn_str e)) s.
Proof.
  intros items a l t. rewrite forallb_computable.
  destruct (forallb (summable is_auditor) items) eqn:Ha; cbn [andb].
  2: { apply calculate_node_raises. unfold calculate_body, bucket_sum.
       apply raises_bind_l. now apply sum_where_not_summable. }
  destruct (forallb (summable is_legal_prof) items) eqn:Hl; cbn [andb].
  2: { apply calculate_node_raises. unfold calculate_body, bucket_sum.
       apply raises_bind_r. intros x. apply raises_bind_l.
       now apply sum_where_not_summable. }
  destruct (forallb (summable is_travel_admin) items) eqn:Ht.
  2: { apply calculate_node_raises. unfold calculate_body, bucket_sum.
       apply raises_bind_r. intros x. apply raises_bind_r. intros y.
       apply raises_bind_l. now apply sum_where_not_summable. }
  destruct (num_add_values a l) as [partial [Hp Vp]]; try apply py_sum_value.
  destruct (num_add_values partial t) as [total [Htot Vt]];
    try apply py_sum_value; auto.
  destruct (analysis_text_values items a l t) as [text Htext];
    try apply py_sum_value.
  exists partial, total, text. repeat split; auto.
  unfold calculate_other_expenses_node, calculate_body. fold items.
  rewrite !bucket_sum_summable by assumption. cbn [bind].
  fold a l t. rewrite Hp. cbn [bind]. rewrite Htot. cbn [bind].
  rewrite Htext. reflexivity.
Qed.

(** ** Beyond the claims: the nodes on an explicit state *)

Lemma extract_mk {RT : Runtime} R I K O E :
  extract_other_expenses_node (mkState R I K O E) =
  match extracted_items R with
  | inr items => mkState R items K O E
  | inl e => mkState R I K O (Some ("Extraction error: " ++ exn_str e))
  end.
Proof.
  unfold extract_other_expenses_node, extract_body, extracted_items.
  cbn [raw_data].
  destruct (py_get _ _ _) as [e|v]; cbn [bind]; [reflexivity|].
  destruct (py_iter v) as [e|exps]; cbn [bind]; [reflexivity|].
  destruct (filter_m _ _); reflexivity.
Qed.

Lemma calculate_mk {RT : Runtime} R I K O E :
  calculate_other_expenses_node (mkState R I K O E) =
  match calculated_summary I with
  | inr calc => mkState R I calc O E
  | inl e => mkState R I K O (Some ("Calculation error: " ++ exn_str e))
  end.
Proof.
  unfold calculate_other_expenses_node, calculate_body, calculated_summary.
  cbn [expense_items].
  repeat (match goal with
          | |- context [bind ?c _] => destruct c; cbn [bind ret]; [reflexivity|]
          end).
  reflexivity.
Qed.

Lemma generate_mk_empty {RT : Runtime} R I O E :
  generate_output_node (mkState R I [] O E) =
  mkState R I zero_summary (zero_report (List.length I)) E.
Proof. reflexivity. Qed.

Lemma generate_mk_stored {RT : Runtime} R I K O E :
  dict_truthy K = true ->
  generate_output_node (mkState R I K O E) =
  match render K I with
  | inr out => mkState R I K out E
  | inl e => mkState R I K O (Some ("Output generation error: " ++ exn_str e))
  end.
Proof.
  intros H. unfold generate_output_node. cbn [calculated_other_expenses].
  rewrite H. cbn [calculated_other_expenses expense_items].
  destruct (render K I); reflexivity.
Qed.


Lemma calculated_summary_stored {RT : Runtime} (I : list pyval) (K : dict) :
  calculated_summary I = inr K ->
  exists a l t total text,
    K = summary a l t total text /\
    sum_value a = true /\ sum_value l = true /\
    sum_value t = true /\ sum_value total = true.
Proof.
  unfold calculated_summary, bucket_sum.
  destruct (sum_where is_auditor _ _) as [e|a] eqn:Ha; cbn [bind]; [discriminate|].
  destruct (sum_where is_legal_prof _ _) as [e|l] eqn:Hl; cbn [bind]; [discriminate|].
  destruct (sum_where is_travel_admin _ _) as [e|t] eqn:Ht; cbn [bind]; [discriminate|].
  apply sum_where_value in Ha, Hl, Ht; try reflexivity.
  destruct (num_add a l) as [e|partial] eqn:Hp; cbn [bind]; [discriminate|].
  destruct (num_add partial t) as [e|total] eqn:Htot; cbn [bind]; [discriminate|].
  destruct (analysis_text _ _ _ _) as [e|text]; cbn [bind ret]; [discriminate|].
  intros H. injection H as <-. exists a, l, t, total, text.
  repeat split; auto.
  apply (num_add_value partial t); auto.
  now apply (num_add_value a l).
Qed.

Lemma calculated_summary_truthy {RT : Runtime} (I : list pyval) (K : dict) :
  calculated_summary I = inr K -> dict_truthy K = true.
Proof.
  intros H. destruct (calculated_summary_stored I K H)
    as [a [l [t [total [text [-> _]]]]]]. reflexivity.
Qed.

Lemma render_calculated_summary {RT : Runtime} (I J : list pyval) (K : dict) :
  calculated_summary I = inr K -> exists out, render K J = inr out.
Proof.
  intros H. destruct (calculated_summary_stored I K H)
    as [a [l [t [total [text [-> [Ha [Hl [Ht Htot]]]]]]]]].
  rewrite render_summary by assumption. eauto.
Qed.

(** ** Beyond the claims: running the graph again *)




Lemma exn_str_with_llm {RT : Runtime} llm (e : exn) :
  exn_str (Runtime := with_llm RT llm) e = exn_str e.
Proof. reflexivity. Qed.







(** ** Beyond the claims: how a run ends *)

Lemma calculated_summary_nil {RT : Runtime} :
  calculated_summary [] =
  inr (summary (NInt 0) (NInt 0) (NInt 0) (NInt 0) empty_analysis).
Proof.
  unfold calculated_summary, analysis_text, empty_analysis.
  cbn [bucket_sum sum_where bind ret num_add Z.add].
  destruct (llm_analysis []); reflexivity.
Qed.

Lemma render_empty_summary {RT : Runtime} (text : string) :
  render (summary (NInt 0) (NInt 0) (NInt 0) (NInt 0) text) [] =
  inr (report_text "0.00" "0.00" "0.00" "0.00" text "0").
Proof. reflexivity. Qed.

(** The final state of a run, by what extraction and calculation met. *)
Lemma run_graph_initial {RT : Runtime} (raw : pyval) :
  let final := run_graph (initial_state raw) in
  match extracted_items raw with
  | inl e =>
      final =
      mkState raw []
        (summary (NInt 0) (NInt 0) (NInt 0) (NInt 0) empty_analysis)
        (report_text "0.00" "0.00" "0.00" "0.00" empty_analysis "0")
        (Some ("Extraction error: " ++ exn_str e))
  | inr items =>
      match calculated_summary items with
      | inl e =>
          final =
          mkState raw items zero_summary (zero_report (List.length items))
            (Some ("Calculation error: " ++ exn_str e))
      | inr calc =>
          exists out,
            render calc items = inr out /\
            final = mkState raw items calc out None
      end
  end.
Proof.
  unfold run_graph, initial_state. rewrite extract_mk.
  destruct (extracted_items raw) as [ex|items] eqn:HX.
  - rewrite calculate_mk, calculated_summary_nil.
    rewrite generate_mk_stored by reflexivity.
    now rewrite render_empty_summary.
  - rewrite calculate_mk.
    destruct (calculated_summary items) as [ec|calc] eqn:HC.
    + now rewrite generate_mk_empty.
    + destruct (render_calculated_summary items items calc HC) as [out Hout].
      exists out. split; [exact Hout|].
      rewrite generate_mk_stored by (now apply calculated_summary_truthy with items).
      now rewrite Hout.
Qed.

(** X6. A run from the initial state ends in one of three ways. If the
    extraction fails, the calculation still runs on the empty item list:
    the summary holds zeros with the analysis for no item, the report
    shows them, and the extraction error stays. If the extraction succeeds
    and the calculation fails, the all-zero placeholder is stored and
    reported with the calculation error. Otherwise the computed summary is
    stored and reported and no error is recorded; the output node never
    adds an error of its own. *)
Theorem run_outcomes {RT : Runtime} (raw : pyval) :
  let final := run_graph (initial_state raw) in
  match extracted_items raw with
  | inl e =>
      final =
      mkState raw []
        (summary (NInt 0) (NInt 0) (NInt 0) (NInt 0) empty_analysis)
        (report_text "0.00" "0.00" "0.00" "0.00" empty_analysis "0")
        (Some ("Extraction error: " ++ exn_str e))
  | inr items =>
      match calculated_summary items with
      | inl e =>
          final =
          mkState raw items zero_summary (zero_report (List.length items))
            (Some ("Calculation error: " ++ exn_str e))
      | inr calc =>
          exists out,
            render calc items = inr out /\
            final = mkState raw items calc out None
      end
  end.
Proof. exact (run_graph_initial raw). Qed.

(** X7. When the extraction succeeds and keeps no record (none sent, or
    none of the kinds looked for), the run stores the integer 0 for every
    bucket and for the total, the analysis for no item, a report of zeros
    over 0 items, and no error. *)
Theorem run_without_items {RT : Runtime} (raw : pyval) :
  extracted_items raw = inr [] ->
  run_graph (initial_state raw) =
  mkState raw []
    (summary (NInt 0) (NInt 0) (NInt 0) (NInt 0) empty_analysis)
    (report_text "0.00" "0.00" "0.00" "0.00" empty_analysis "0")
    None.
Proof.
  intros HX. pose proof (run_graph_initial raw) as H. cbv zeta in H.
  rewrite HX, calculated_summary_nil in H.
  destruct H as [out [Hout ->]].
  rewrite render_empty_summary in Hout. now injection Hout as <-.
Qed.

(** X8. Nothing after the extraction touches the reply or the item list,
    and each node writes its own field or the error field, never both:
    the extraction leaves summary and report alone, the calculation
    leaves items and report alone, the output node leaves items alone and
    replaces the summary only when none is stored. *)
Theorem nodes_write_only_their_fields {RT : Runtime} (s : ExpenseState) :
  (let s' := extract_other_expenses_node s in
   raw_data s' = raw_data s /\
   calculated_other_expenses s' = calculated_other_expenses s /\
   output s' = output s /\
   (error s' = error s \/ expense_items s' = expense_items s)) /\
  (let s' := calculate_other_expenses_node s in
   raw_data s' = raw_data s /\
   expense_items s' = expense_items s /\
   output s' = output s /\
   (error s' = error s \/
    calculated_other_expenses s' = calculated_other_expenses s)) /\
  (let s' := generate_output_node s in
   raw_data s' = raw_data s /\
   expense_items s' = expense_items s /\
   calculated_other_expenses s' =
     (if dict_truthy (calculated_other_expenses s)
      then calculated_other_expenses s else zero_summary) /\
   (error s' = error s \/ output s' = output s)) /\
  raw_data (run_graph s) = raw_data s /\
  expense_items (run_graph s) = expense_items (extract_other_expenses_node s).
Proof.
  destruct s as [R I K O E]. unfold run_graph.
  rewrite extract_mk, calculate_mk. repeat split.
  - now destruct (extracted_items R).
  - now destruct (extracted_items R).
  - now destruct (extracted_items R).
  - destruct (extracted_items R); cbn; auto.
  - now destruct (calculated_summary I).
  - now destruct (calculated_summary I).
  - now destruct (calculated_summary I).
  - destruct (calculated_summary I); cbn; auto.
  - unfold generate_output_node. cbn [calculated_other_expenses].
    destruct (dict_truthy K); destruct (render _ _); reflexivity.
  - apply generate_expense_items.
  - apply generate_calculated.
  - unfold generate_output_node. cbn [calculated_other_expenses].
    destruct (dict_truthy K); destruct (render _ _); cbn; auto.
  - destruct (extracted_items R) as [e|I'];
      rewrite calculate_mk; destruct (calculated_summary _);
      unfold generate_output_node; cbn [calculated_other_expenses];
      destruct (dict_truthy _); destruct (render _ _); reflexivity.
  - destruct (extracted_items R) as [e|I'];
      rewrite calculate_mk; destruct (calculated_summary _);
      rewrite generate_expense_items; reflexivity.
Qed.

(** ** Beyond the claims: a whole run on well-formed records *)

Lemma calculated_summary_computable {RT : Runtime} (items : list pyval) :
  forallb computable items = true ->
  let a := py_sum (matching_amounts is_auditor items) in
  let l := py_sum (matching_amounts is_legal_prof items) in
  let t := py_sum (matching_amounts is_travel_admin items) in
  exists partial total text,
    num_add a l = inr partial /\
    num_add partial t = inr total /\
    sum_value total = true /\
    analysis_text items a l t = inr text /\
    calculated_summary items = inr (summary a l t total text).
Proof.
  rewrite forallb_computable, !andb_true_iff. intros [[Ha Hl] Ht] a l t.
  destruct (num_add_values a l) as [partial [Hp Vp]]; try apply py_sum_value.
  destruct (num_add_values partial t) as [total [Htot Vt]];
    try apply py_sum_value; auto.
  destruct (analysis_text_values items a l t) as [text Htext];
    try apply py_sum_value.
  exists partial, total, text. repeat split; auto.
  unfold calculated_summary.
  rewrite !bucket_sum_summable by assumption. cbn [bind].
  fold a l t. rewrite Hp. cbn [bind]. rewrite Htot. cbn [bind].
  rewrite Htext. reflexivity.
Qed.

Lemma extracted_items_records {RT : Runtime} (d : dict) (recs : list dict) :
  lookup "expenses" d = Some (PList (map PDict recs)) ->
  extracted_items (PDict d) = inr (map PDict (filter relevantb recs)).
Proof.
  intros H. unfold extracted_items. cbn [py_get bind ret]. rewrite H.
  cbn [py_iter bind ret]. apply filter_m_records.
Qed.

Lemma summable_record {RT : Runtime} cond (r : dict) :
  raises (amount_of (PDict r)) = false -> summable cond (PDict r) = true.
Proof.
  intros H. unfold summable. cbn [category_label py_get bind ret].
  rewrite H. now destruct (cond _).
Qed.

Lemma kept_records_computable {RT : Runtime} (recs : list dict) :
  (forall r, In r recs -> relevantb r = true ->
             raises (amount_of (PDict r)) = false) ->
  forallb computable (map PDict (filter relevantb recs)) = true.
Proof.
  intros H. apply forallb_forall. intros x Hx.
  apply in_map_iff in Hx as [r [<- Hr]]. apply filter_In in Hr as [Hin Hrel].
  unfold computable. now rewrite !summable_record by auto.
Qed.

(** X9. On a reply whose expenses are records, each kept record having an
    amount [float] accepts, the whole run succeeds: it keeps the records
    with a keyword in their label, stores the three sums of the matching
    amounts and their total, reports each with two decimals together with
    the analysis and the number of kept records, and records no error. *)
Theorem run_on_well_formed_records {RT : Runtime} (d : dict) (recs : list dict) :
  lookup "expenses" d = Some (PList (map PDict recs)) ->
  (forall r, In r recs -> relevantb r = true ->
             raises (amount_of (PDict r)) = false) ->
  let items := map PDict (filter relevantb recs) in
  let a := py_sum (matching_amounts is_auditor items) in
  let l := py_sum (matching_amounts is_legal_prof items) in
  let t := py_sum (matching_amounts is_travel_admin items) in
  exists partial total text,
    num_add a l = inr partial /\
    num_add partial t = inr total /\
    analysis_text items a l t = inr text /\
    run_graph (initial_state (PDict d)) =
    mkState (PDict d) items (summary a l t total text)
      (report_text (format_number a) (format_number l) (format_number t)
         (format_number total) text (string_of_nat (List.length items)))
      None.
Proof.
  intros Hexp Hamt items a l t.
  pose proof (extracted_items_records d recs Hexp) as HX. fold items in HX.
  destruct (calculated_summary_computable items (kept_records_computable recs Hamt))
    as [partial [total [text [Hp [Htot [Vtot [Htext HC]]]]]]].
  fold a l t in Hp, Htot, Htext, HC.
  exists partial, total, text. repeat split; auto.
  pose proof (run_graph_initial (PDict d)) as H. cbv zeta in H.
  rewrite HX, HC in H. destruct H as [out [Hout ->]].
  rewrite render_summary in Hout by (try apply py_sum_value; exact Vtot).
  now injection Hout as <-.
Qed.

Lemma Substring_report_analysis (a l t total analysis count : string) :
  Substring analysis (report_text a l t total analysis count).
Proof.
  unfold report_text.
  repeat first [apply Substring_here | apply Substring_skip].
Qed.

(** X10. When the chat model answers, its reply is stored as the analysis
    word for word and appears unchanged in the report; the sums are
    computed before the model is asked and do not depend on the reply. *)
Theorem chat_reply_stored_and_reported {RT : Runtime}
    (raw : pyval) (items : list pyval) (reply : string) :
  extracted_items raw = inr items ->
  forallb computable items = true ->
  llm_analysis items = Some reply ->
  let final := run_graph (initial_state raw) in
  lookup "ai_analysis" (calculated_other_expenses final) = Some (PStr reply) /\
  lookup "auditor_fees" (calculated_other_expenses final) =
    Some (pyval_of_number (py_sum (matching_amounts is_auditor items))) /\
  lookup "legal_and_professional_charges" (calculated_other_expenses final) =
    Some (pyval_of_number (py_sum (matching_amounts is_legal_prof items))) /\
  lookup "travel_and_administrative_expenses" (calculated_other_expenses final) =
    Some (pyval_of_number (py_sum (matching_amounts is_travel_admin items))) /\
  Substring reply (output final) /\
  error final = None.
Proof.
  intros HX Hc Hllm final.
  destruct (calculated_summary_computable items Hc)
    as [partial [total [text [Hp [Htot [Vtot [Htext HC]]]]]]].
  unfold analysis_text in Htext. rewrite Hllm in Htext. injection Htext as <-.
  pose proof (run_graph_initial raw) as H. cbv zeta in H.
  rewrite HX, HC in H. destruct H as [out [Hout Hfinal]].
  rewrite render_summary in Hout by (try apply py_sum_value; exact Vtot).
  injection Hout as <-. subst final. rewrite Hfinal.
  repeat split; try reflexivity.
  apply Substring_report_analysis.
Qed.

(** ** Beyond the claims: the main program *)

(** X11. Once the data are fetched, the program either reports an error
    or saves a result, never both. If the run recorded an error, it
    prints that message after the two progress lines and nothing else:
    the report, though generated, is not shown and no file is written.
    Otherwise it prints the report and writes to the result file the
    summary computed from the extracted items, never the all-zero
    placeholder, and confirms; if the file cannot be opened it stops
    after the report. *)
Theorem main_prints_error_or_saves {RT : Runtime}
    (getenv : string -> option string) (http : request -> http_result)
    (disk_ok : bool) (raw : pyval) :
  fetch_ac_data getenv http = Some raw ->
  let final := run_graph (initial_state raw) in
  let start := Print "[START] Fetching data from AC API..." in
  let processing := Print "[PROCESSING] Processing expenses with LangGraph..." in
  match error final with
  | Some msg =>
      main getenv http disk_ok =
      ([start; processing; Print ("[ERROR] Error: " ++ msg)], Completed)
  | None =>
      (exists items,
         extracted_items raw = inr items /\
         calculated_summary items = inr (calculated_other_expenses final)) /\
      main getenv http disk_ok =
      if disk_ok
      then ([start; processing;
             Print (output final);
             WriteJson "other_expenses_result.json"
               (calculated_other_expenses final);
             Print (nl ++ "[SUCCESS] Results saved to other_expenses_result.json")],
            Completed)
      else ([start; processing; Print (output final)], Aborted)
  end.
Proof.
  intros Hfetch final start processing. unfold main. rewrite Hfetch.
  fold final. pose proof (run_graph_initial raw) as H. cbv zeta in H.
  fold final in H.
  destruct (extracted_items raw) as [ex|items] eqn:HX.
  - rewrite H. reflexivity.
  - destruct (calculated_summary items) as [ec|calc] eqn:HC.
    + rewrite H. reflexivity.
    + destruct H as [out [Hout ->]]. cbn [error error_truthy].
      split; [now exists items|]. reflexivity.
Qed.

(** ** Beyond the claims: the sign of the grand total *)

Lemma inr_eq {A} (x y : A) : @inr exn A x = inr y -> x = y.
Proof. congruence. Qed.

Lemma num_add_nonneg (a b c : number) :
  sum_value a = true -> sum_value b = true ->
  number_nonneg a = true -> number_nonneg b = true ->
  num_add a b = inr c -> number_nonneg c = true.
Proof.
  destruct a as [[| |]|x], b as [[| |]|y]; try discriminate;
    intros _ _ Ha Hb H.
  - apply inr_eq in H. now subst c.
  - change (num_add (NInt 0) (NFloat y))
      with (@inr exn _ (NFloat (float_add (S754_zero false) y))) in H.
    apply inr_eq in H. subst c. now apply float_add_nonneg.
  - change (num_add (NFloat x) (NInt 0))
      with (@inr exn _ (NFloat (float_add x (S754_zero false)))) in H.
    apply inr_eq in H. subst c. now apply float_add_nonneg.
  - change (num_add (NFloat x) (NFloat y))
      with (@inr exn _ (NFloat (float_add x y))) in H.
    apply inr_eq in H. subst c. now apply float_add_nonneg.
Qed.

(** X12. When the calculation succeeds and every amount that enters a
    bucket is non-negative, the stored grand total is non-negative too. *)
Theorem grand_total_nonneg_when_amounts_are {RT : Runtime} (s : ExpenseState) :
  forallb computable (expense_items s) = true ->
  (forall key cond, In (key, cond) bucket_tests ->
     Forall (fun x => float_nonneg x = true)
            (matching_amounts cond (expense_items s))) ->
  exists v,
    lookup "total_other_expenses"
      (calculated_other_expenses (calculate_other_expenses_node s)) = Some v /\
    value_nonneg v = true.
Proof.
  intros Hc Hpos. destruct s as [R I K O E]. cbn [expense_items] in *.
  destruct (calculated_summary_computable I Hc)
    as [partial [total [text [Hp [Htot [Vtot [_ HC]]]]]]].
  rewrite calculate_mk, HC. cbn [calculated_other_expenses].
  exists (pyval_of_number total). split; [reflexivity|].
  rewrite value_nonneg_number.
  assert (Ha : number_nonneg (py_sum (matching_amounts is_auditor I)) = true).
  { apply py_sum_nonneg, (Hpos "auditor_fees"). cbn; auto. }
  assert (Hl : number_nonneg (py_sum (matching_amounts is_legal_prof I)) = true).
  { apply py_sum_nonneg, (Hpos "legal_and_professional_charges"). cbn; auto. }
  assert (Ht : number_nonneg (py_sum (matching_amounts is_travel_admin I)) = true).
  { apply py_sum_nonneg, (Hpos "travel_and_administrative_expenses"). cbn; auto. }
  assert (Vp : sum_value partial = true).
  { eapply num_add_value; [| |exact Hp]; apply py_sum_value. }
  assert (Hpn : number_nonneg partial = true).
  { eapply num_add_nonneg; [| | | |exact Hp]; auto using py_sum_value. }
  eapply num_add_nonneg; [| | | |exact Htot]; auto using py_sum_value.
Qed.

(** ** Beyond the claims: a category that is no text *)

Lemma contains_first_char (k : ascii) (kw s : string) :
  contains (String k kw) s = true -> In k (list_ascii_of_string s).
Proof.
  induction s as [|c s IH]; cbn [contains String.prefix list_ascii_of_string].
  - discriminate.
  - destruct (ascii_dec k c) as [->|Hkc].
    + intros _. now left.
    + cbn [orb]. intros H. right. now apply IH.
Qed.

Lemma contains_plain (k : ascii) (kw s : string) :
  is_plain k = false ->
  (forall c, In c (list_ascii_of_string s) -> is_plain c = true) ->
  contains (String k kw) s = false.
Proof.
  intros Hk Hs. destruct (contains (String k kw) s) eqn:H; [|reflexivity].
  apply contains_first_char in H. apply Hs in H. congruence.
Qed.

Lemma lower_uint_plain (d : Decimal.uint) (c : ascii) :
  In c (list_ascii_of_string (lower (NilEmpty.string_of_uint d))) ->
  is_plain c = true.
Proof.
  induction d; cbn [NilEmpty.string_of_uint lower list_ascii_of_string In];
    try contradiction; intros [<-|H]; auto.
Qed.

Lemma lower_string_of_Z_plain (z : Z) (c : ascii) :
  In c (list_ascii_of_string (lower (string_of_Z z))) -> is_plain c = true.
Proof.
  unfold string_of_Z, NilZero.string_of_int, NilZero.string_of_uint.
  destruct (Z.to_int z) as [d|d].
  - destruct d; try apply lower_uint_plain.
    cbn. intros [<-|[]]. reflexivity.
  - cbn [lower list_ascii_of_string In]. intros [<-|H]; [reflexivity|].
    revert H. destruct d; try apply lower_uint_plain.
    cbn. intros [<-|[]]. reflexivity.
Qed.

Lemma plain_label_irrelevant (label : string) :
  (forall c, In c (list_ascii_of_string label) -> is_plain c = true) ->
  any_keyword key_categories label = false.
Proof.
  intros H. unfold any_keyword, key_categories. cbn [existsb].
  now rewrite !contains_plain by (reflexivity || exact H).
Qed.

(** X13. A record whose category is null, a boolean or a whole number is
    never kept: its text form holds no keyword, and the extraction passes
    over it without an error. *)
Theorem bare_scalar_category_dropped {RT : Runtime} (r : dict) (v : pyval) :
  lookup "category" r = Some v ->
  is_bare_scalar v = true ->
  is_relevant (PDict r) = inr false.
Proof.
  intros Hcat Hv. rewrite is_relevant_record. f_equal.
  unfold relevantb, label_of, dict_get. rewrite Hcat.
  destruct v as [|[|]|z| | | |]; try discriminate; try reflexivity.
  cbn [py_str]. apply plain_label_irrelevant. apply lower_string_of_Z_plain.
Qed.

(** ** Runs on concrete data, beyond the claims *)

Lemma keyword_in_any_case_witness :
  is_relevant (RT := offline_runtime) (PDict shouting_record) = inr true.
Proof.
  apply (keyword_in_any_case (RT := offline_runtime)
           shouting_record "Q3 " "TRAVEL" " & Lodging").
  - reflexivity.
  - right; right; right; left; reflexivity.
Defined.

Lemma kept_iff_some_bucket_witness :
  exists key cond,
    In (key, cond) bucket_tests /\
    cond (item_label (RT := offline_runtime) (PDict shouting_record)) = true.
Proof.
  exact (proj1 (kept_iff_some_bucket (RT := offline_runtime)
                  (PDict shouting_record) true eq_refl) eq_refl).
Defined.

Lemma run_without_items_witness :
  run_graph (RT := offline_runtime) (initial_state (raw_of [])) =
  mkState (raw_of []) []
    (summary (NInt 0) (NInt 0) (NInt 0) (NInt 0)
       (fallback_template "0.00" "0.00" "0.00"))
    (report_text "0.00" "0.00" "0.00" "0.00"
       (fallback_template "0.00" "0.00" "0.00") "0")
    None.
Proof.
  exact (run_without_items (RT := offline_runtime) (raw_of []) eq_refl).
Defined.

Lemma run_on_well_formed_records_witness :
  error (run_graph (RT := offline_runtime)
           (initial_state (PDict [("expenses", PList (map PDict sample_records))]))) =
  None.
Proof.
  assert (H : forall r, In r sample_records ->
                relevantb (RT := offline_runtime) r = true ->
                raises (amount_of (RT := offline_runtime) (PDict r)) = false).
  { intros r [<-|[<-|[<-|[<-|[]]]]] _; reflexivity. }
  destruct (run_on_well_formed_records (RT := offline_runtime)
              [("expenses", PList (map PDict sample_records))] sample_records
              eq_refl H) as [partial [total [text [_ [_ [_ Hrun]]]]]].
  rewrite Hrun. reflexivity.
Defined.

Lemma chat_reply_stored_and_reported_witness :
  lookup "ai_analysis"
    (calculated_other_expenses
       (run_graph (RT := chatty_runtime) (initial_state (raw_of five_records)))) =
  Some (PStr "Nothing unusual.") /\
  Substring "Nothing unusual."
    (output (run_graph (RT := chatty_runtime)
               (initial_state (raw_of five_records)))).
Proof.
  destruct (chat_reply_stored_and_reported (RT := chatty_runtime)
              (raw_of five_records) five_records "Nothing unusual."
              eq_refl eq_refl eq_refl) as [H1 [_ [_ [_ [H2 _]]]]].
  split; [exact H1 | exact H2].
Defined.

Lemma main_prints_error_or_saves_witness :
  fetch_ac_data (fun _ => None) unreachable = Some mock_data /\
  snd (main (RT := offline_runtime) (fun _ => None) unreachable true) = Completed /\
  written (fst (main (RT := offline_runtime) (fun _ => None) unreachable true)) =
  Some (summary (NFloat (float_of_Z 5000)) (NFloat (float_of_Z 5300))
                (NFloat (float_of_Z 3100)) (NFloat (float_of_Z 13400))
                (fallback_template "5000.00" "5300.00" "3100.00")).
Proof.
  split; [reflexivity|].
  pose proof (main_prints_error_or_saves (RT := offline_runtime)
                (fun _ => None) unreachable true mock_data eq_refl) as H.
  cbv zeta in H.
  change (error (run_graph (RT := offline_runtime) (initial_state mock_data)))
    with (@None string) in H.
  destruct H as [_ H]. rewrite H. split; reflexivity.
Defined.

Lemma grand_total_nonneg_when_amounts_are_witness :
  exists v,
    lookup "total_other_expenses"
      (calculated_other_expenses
         (calculate_other_expenses_node (RT := offline_runtime)
            (extracted five_records))) = Some v /\
    value_nonneg v = true.
Proof.
  apply (grand_total_nonneg_when_amounts_are (RT := offline_runtime)
           (extracted five_records)).
  - reflexivity.
  - intros key cond [H|[H|[H|[]]]]; injection H as <- <-; repeat constructor.
Defined.

Lemma bare_scalar_category_dropped_witness :
  is_relevant (RT := offline_runtime)
    (PDict [("category", PInt 2024); ("amount", PInt 5)]) = inr false.
Proof.
  exact (bare_scalar_category_dropped (RT := offline_runtime)
           [("category", PInt 2024); ("amount", PInt 5)] (PInt 2024)
           eq_refl eq_refl).
Defined.

